(** * atgora-api: firehose ingestion core

    A shallow embedding of the record-event pipeline of the API server:

    - [src/firehose/clamp-timestamp.ts]  (timestamp clamp),
    - [src/firehose/validation.ts]       (record validator),
    - [src/lib/at-uri.ts], second part   (DID document verifier, which
      its tests import as [src/lib/did-document-verifier.ts]),
    - [src/firehose/handlers/record.ts]  (record event handler),

    and of the code around it that uses the same parts:

    - [src/lib/at-uri.ts], first part    (record key of an AT URI) and
      the [extractDidFromUri] of the moderation routes,
    - [src/auth/middleware.ts], [src/auth/require-admin.ts] (auth hooks
      over the verifier),
    - [src/lib/api-errors.ts], second part, and [src/routes/setup.ts]
      (setup service and its routes).

    Asynchronous TypeScript is rendered as explicit state passing: a
    computation takes the current world and returns either a value or a
    thrown exception, together with the world it leaves behind.  Side
    effects performed before a [throw] stay performed. *)

From Stdlib Require Import ZArith List String Ascii Bool Lia DecimalString.
Import ListNotations.
Local Open Scope string_scope.
Local Open Scope Z_scope.

(* ===================================================================== *)
(** ** Timestamp clamp: [src/firehose/clamp-timestamp.ts]                *)
(* ===================================================================== *)

Module Clamp.

(** A JavaScript [Date] holds a time value: either NaN ("Invalid Date")
    or an integral number of milliseconds of magnitude at most
    8.64e15.  All sums below stay under 2^53, so the double arithmetic
    of the source is exact on them and [Z] arithmetic models it. *)
Inductive Date : Type :=
| InvalidDate
| DateAt (t : Z).

Definition MAX_TIME_VALUE : Z := 8640000000000000.

(** ECMAScript TimeClip, applied by [new Date(number)]. *)
Definition TimeClip (t : Z) : Date :=
  if Z.abs t <=? MAX_TIME_VALUE then DateAt t else InvalidDate.

(** [d.getTime()]: [None] stands for NaN. *)
Definition getTime (d : Date) : option Z :=
  match d with
  | InvalidDate => None
  | DateAt t => Some t
  end.

(** [new Date(v)] for a number [v]. *)
Definition newDate (v : option Z) : Date :=
  match v with
  | None => InvalidDate
  | Some t => TimeClip t
  end.

(** Number addition and subtraction with NaN propagation. *)
Definition num_add (a : option Z) (b : Z) : option Z := option_map (fun x => x + b) a.
Definition num_sub (a : option Z) (b : Z) : option Z := option_map (fun x => x - b) a.

(** [a > b] and [a < b] on Dates compare the time values; any
    comparison with NaN is false. *)
Definition date_gt (a b : Date) : bool :=
  match getTime a, getTime b with
  | Some x, Some y => y <? x
  | _, _ => false
  end.

Definition date_lt (a b : Date) : bool :=
  match getTime a, getTime b with
  | Some x, Some y => x <? y
  | _, _ => false
  end.

Definition MAX_FUTURE_MS : Z := 5 * 60 * 1000.
Definition MAX_PAST_MS : Z := 60 * 60 * 1000.

Definition clampCreatedAt (clientCreatedAt now : Date) : Date :=
  let maxFuture := newDate (num_add (getTime now) MAX_FUTURE_MS) in
  let maxPast := newDate (num_sub (getTime now) MAX_PAST_MS) in
  if date_gt clientCreatedAt maxFuture then now
  else if date_lt clientCreatedAt maxPast then maxPast
  else clientCreatedAt.

(** A time value a valid [Date] can hold. *)
Definition time_value (t : Z) : Prop := - MAX_TIME_VALUE <= t <= MAX_TIME_VALUE.

End Clamp.

(* ===================================================================== *)
(** ** Effects: exceptions, logger, collaborator calls, detached promises *)
(* ===================================================================== *)

Module Eff.

(** A thrown JavaScript value, identified by its message. *)
Definition Err : Type := string.

Inductive Result (A : Type) : Type :=
| Ok (a : A)
| Throw (err : Err).
Arguments Ok {A} a.
Arguments Throw {A} err.

(** The structured logger ([src/lib/logger.ts], a pino logger): a call
    appends one entry and returns. *)
Inductive Level : Type := debug | info | warn | error.

Inductive LogValue : Type :=
| LStr (s : string)
| LNum (n : Z)
| LErr (err : Err)
| LDate (t : Z)
| LUndefined.

Record LogEntry : Type := mkLogEntry {
  level : Level;
  fields : list (string * LogValue);
  msg : string
}.

(** The world a computation runs in: the state of everything outside
    the process ([ext]: database, cache server, network, clock), the
    log written so far, the collaborator calls issued so far (oldest
    first) and the promise chains that were started and not awaited. *)
Record World (E C T : Type) : Type := mkWorld {
  ext : E;
  log : list LogEntry;
  calls : list C;
  pending : list T
}.
Arguments mkWorld {E C T} ext log calls pending.
Arguments ext {E C T} w.
Arguments log {E C T} w.
Arguments calls {E C T} w.
Arguments pending {E C T} w.

Definition M (E C T A : Type) : Type := World E C T -> Result A * World E C T.

Section Ops.
Context {E C T : Type}.
Notation World := (World E C T).
Notation M := (M E C T).

Definition set_ext (e : E) (w : World) : World :=
  mkWorld e (log w) (calls w) (pending w).
Definition add_log (l : LogEntry) (w : World) : World :=
  mkWorld (ext w) (log w ++ [l]) (calls w) (pending w).
Definition add_call (c : C) (w : World) : World :=
  mkWorld (ext w) (log w) (calls w ++ [c]) (pending w).
Definition add_pending (t : T) (w : World) : World :=
  mkWorld (ext w) (log w) (calls w) (pending w ++ [t]).

Definition ret {A} (a : A) : M A := fun w => (Ok a, w).

Definition throw {A} (err : Err) : M A := fun w => (Throw err, w).

Definition bind {A B} (m : M A) (k : A -> M B) : M B :=
  fun w =>
    match m w with
    | (Ok a, w1) => k a w1
    | (Throw err, w1) => (Throw err, w1)
    end.

(** [try { m } catch (err) { handler err }]. *)
Definition try_catch {A} (m : M A) (handler : Err -> M A) : M A :=
  fun w =>
    match m w with
    | (Ok a, w1) => (Ok a, w1)
    | (Throw err, w1) => handler err w1
    end.

(** A pure step that may throw. *)
Definition lift {A} (r : Result A) : M A := fun w => (r, w).

(** [logger.<level>(fields, msg)]. *)
Definition logAt (lv : Level) (fs : list (string * LogValue)) (m : string) : M unit :=
  fun w => (Ok tt, add_log (mkLogEntry lv fs m) w).

(** Issuing a collaborator call records it. *)
Definition issue (c : C) : M unit := fun w => (Ok tt, add_call c w).

(** Awaiting a collaborator call: it acts on the outside state and
    resolves or rejects. *)
Definition await {A} (f : E -> Result A * E) : M A :=
  fun w => let (r, e1) := f (ext w) in (r, set_ext e1 w).

(** [await collaborator.op(args)]. *)
Definition call {A} (c : C) (f : E -> Result A * E) : M A :=
  bind (issue c) (fun _ => await f).

(** A read of the outside state that cannot fail ([Date.now()]). *)
Definition ask {A} (f : E -> A * E) : M A :=
  fun w => let (a, e1) := f (ext w) in (Ok a, set_ext e1 w).

(** A promise chain that is started and not awaited. *)
Definition detach (t : T) : M unit := fun w => (Ok tt, add_pending t w).

End Ops.

Declare Scope eff_scope.
Delimit Scope eff_scope with eff.
Notation "x <- m ;; k" := (bind m (fun x => k))
  (at level 61, m at next level, right associativity) : eff_scope.
Notation "m ;; k" := (bind m (fun _ => k))
  (at level 61, right associativity) : eff_scope.

(** [String(n)] for an integer [n]. *)
Definition string_of_Z (z : Z) : string := NilZero.string_of_int (Z.to_int z).

End Eff.

(* ===================================================================== *)
(** ** Firehose types                                                    *)
(* ===================================================================== *)

Module Types.
Import Eff.

(** Modelled from the spec: [SUPPORTED_COLLECTIONS] of
    [src/firehose/types.ts], which is not among the sources; the three
    collections are the ones [tests/unit/firehose/types.test.ts]
    asserts. *)
Definition SUPPORTED_COLLECTIONS : list string :=
  [ "forum.atgora.topic.post";
    "forum.atgora.topic.reply";
    "forum.atgora.interaction.reaction" ].

(** Modelled from the spec: [COLLECTION_MAP] of [src/firehose/types.ts],
    with the entries asserted by [tests/unit/firehose/types.test.ts].
    [None] is the [undefined] of a missing key. *)
Definition COLLECTION_MAP (collection : string) : option string :=
  if String.eqb collection "forum.atgora.topic.post" then Some "topic"
  else if String.eqb collection "forum.atgora.topic.reply" then Some "reply"
  else if String.eqb collection "forum.atgora.interaction.reaction" then Some "reaction"
  else None.

(** [SUPPORTED_COLLECTIONS.includes(collection)], as written in
    [src/firehose/validation.ts]. *)
Definition isSupportedCollection (collection : string) : bool :=
  existsb (String.eqb collection) SUPPORTED_COLLECTIONS.

(** Modelled from the spec: the [action] of a [RecordEvent] (section 3),
    compared by [handle] with ['create'] and ['delete']. *)
Inductive Action : Type := create | update | delete.

Definition action_name (a : Action) : string :=
  match a with
  | create => "create"
  | update => "update"
  | delete => "delete"
  end.

(** Modelled from the spec: [RecordEvent] of [src/firehose/types.ts]
    (section 3), with the fields [handle] destructures; [record] and
    [cid] are optional. *)
Module RecordEvent.
Record t (Doc : Type) : Type := mk {
  id : Z;
  collection : string;
  action : Action;
  did : string;
  rkey : string;
  record : option Doc;
  cid : option string;
  live : bool
}.
Arguments mk {Doc}.
Arguments id {Doc}.
Arguments collection {Doc}.
Arguments action {Doc}.
Arguments did {Doc}.
Arguments rkey {Doc}.
Arguments record {Doc}.
Arguments cid {Doc}.
Arguments live {Doc}.
End RecordEvent.

(** Modelled from the spec: [TrustStatus] of
    [src/services/account-age.ts] (section 3), the enum of "new" and
    "trusted". *)
Inductive TrustStatus : Type := new | trusted.

(** The [params] object handed to the indexers' create and update
    entry points. *)
Module Params.
Record t (Doc : Type) : Type := mk {
  uri : string;
  rkey : string;
  did : string;
  cid : string;
  record : Doc;
  live : bool;
  trustStatus : TrustStatus
}.
Arguments mk {Doc}.
Arguments uri {Doc}.
Arguments rkey {Doc}.
Arguments did {Doc}.
Arguments cid {Doc}.
Arguments record {Doc}.
Arguments live {Doc}.
Arguments trustStatus {Doc}.
End Params.

(** The three lexicon schemas of [@atgora-forum/lexicons]. *)
Inductive Schema : Type := topicPostSchema | topicReplySchema | reactionSchema.

(** Collaborator calls the record handler can issue. *)
Inductive Call (Doc : Type) : Type :=
| SafeParse (schema : Schema) (record : Doc)
| DbSelectReplyRootUri (uri : string)
| DbSelectReactionSubjectUri (uri : string)
| DbSelectUser (did : string)
| DbUpdateUserAccountCreatedAt (did : string) (createdAt : Clamp.Date)
| DbInsertUser (did handle : string) (accountCreatedAt : option Clamp.Date)
| ResolveCreationDate (did : string)
| DetermineTrustStatus (createdAt : option Clamp.Date)
| TopicHandleCreate (params : Params.t Doc)
| ReplyHandleCreate (params : Params.t Doc)
| ReactionHandleCreate (params : Params.t Doc)
| TopicHandleUpdate (params : Params.t Doc)
| ReplyHandleUpdate (params : Params.t Doc)
| TopicHandleDelete (uri rkey did : string)
| ReplyHandleDelete (uri rkey did rootUri : string)
| ReactionHandleDelete (uri rkey did subjectUri : string).
Arguments SafeParse {Doc}.
Arguments DbSelectReplyRootUri {Doc}.
Arguments DbSelectReactionSubjectUri {Doc}.
Arguments DbSelectUser {Doc}.
Arguments DbUpdateUserAccountCreatedAt {Doc}.
Arguments DbInsertUser {Doc}.
Arguments ResolveCreationDate {Doc}.
Arguments DetermineTrustStatus {Doc}.
Arguments TopicHandleCreate {Doc}.
Arguments ReplyHandleCreate {Doc}.
Arguments ReactionHandleCreate {Doc}.
Arguments TopicHandleUpdate {Doc}.
Arguments ReplyHandleUpdate {Doc}.
Arguments TopicHandleDelete {Doc}.
Arguments ReplyHandleDelete {Doc}.
Arguments ReactionHandleDelete {Doc}.

(** Calls that enter an indexer. *)
Definition is_indexer_call {Doc} (c : Call Doc) : bool :=
  match c with
  | TopicHandleCreate _ | ReplyHandleCreate _ | ReactionHandleCreate _
  | TopicHandleUpdate _ | ReplyHandleUpdate _
  | TopicHandleDelete _ _ _ | ReplyHandleDelete _ _ _ _
  | ReactionHandleDelete _ _ _ _ => true
  | _ => false
  end.

End Types.

(* ===================================================================== *)
(** ** Record validator: [src/firehose/validation.ts]                    *)
(* ===================================================================== *)

Module Validation.
Import Eff Types.
Local Open Scope eff_scope.

(** A JavaScript string is a sequence of UTF-16 code units; its
    [.length] counts them. *)
Definition JSString : Type := list Z.

(** [JSON.stringify(record)]: it throws (cyclic value, BigInt), returns
    [undefined] ([None]: the value is [undefined] or a function), or
    returns the serialization. *)
Class Serializable (Doc : Type) : Type := {
  JSON_stringify : Doc -> Result (option JSString)
}.

(** [schema.safeParse(record).success] for the lexicon schemas. *)
Class Lexicons (Doc : Type) : Type := {
  safeParse : Schema -> Doc -> Result bool
}.

Definition MAX_RECORD_SIZE : Z := 64 * 1024.

Inductive ValidationResult (Doc : Type) : Type :=
| Success (data : Doc)
| Failure (error : string).
Arguments Success {Doc} data.
Arguments Failure {Doc} error.

(** [schemaMap[collection]]. *)
Definition schemaMap (collection : string) : option Schema :=
  if String.eqb collection "forum.atgora.topic.post" then Some topicPostSchema
  else if String.eqb collection "forum.atgora.topic.reply" then Some topicReplySchema
  else if String.eqb collection "forum.atgora.interaction.reaction" then Some reactionSchema
  else None.

Section Validate.
Context {E T Doc : Type} {serializer : Serializable Doc} {lexicons : Lexicons Doc}.
Notation M := (M E (Call Doc) T).

(** [serialized.length]; reading a property of [undefined] throws. *)
Definition serialized_length (serialized : option JSString) : M Z :=
  match serialized with
  | Some s => ret (Z.of_nat (List.length s))
  | None => throw "TypeError: Cannot read properties of undefined (reading 'length')"
  end.

Definition validateRecord (collection : string) (record : Doc)
  : M (ValidationResult Doc) :=
  if negb (isSupportedCollection collection) then
    ret (Failure ("Unsupported collection: " ++ collection))
  else
    serialized <- lift (JSON_stringify record) ;;
    len <- serialized_length serialized ;;
    if len >? MAX_RECORD_SIZE then
      ret (Failure ("Record exceeds maximum size of "
                      ++ string_of_Z MAX_RECORD_SIZE ++ " bytes"))
    else
      match schemaMap collection with
      | None => throw "TypeError: Cannot read properties of undefined (reading 'safeParse')"
      | Some schema =>
          success <- (issue (SafeParse schema record) ;;
                      lift (safeParse schema record)) ;;
          if negb success then
            ret (Failure ("Validation failed for " ++ collection))
          else
            ret (Success record)
      end.

End Validate.

(** The byte length of a string in UTF-8, the serialization size the
    specification speaks of: one to three bytes for a code unit of the
    basic plane, four for a surrogate pair, three for an unpaired
    surrogate (encoded as U+FFFD). *)
Definition is_high_surrogate (c : Z) : bool := (55296 <=? c) && (c <=? 56319).
Definition is_low_surrogate (c : Z) : bool := (56320 <=? c) && (c <=? 57343).

Fixpoint utf8_length (s : JSString) : Z :=
  match s with
  | [] => 0
  | c :: rest =>
      if c <? 128 then 1 + utf8_length rest
      else if c <? 2048 then 2 + utf8_length rest
      else if is_high_surrogate c then
        match rest with
        | d :: rest' =>
            if is_low_surrogate d then 4 + utf8_length rest'
            else 3 + utf8_length rest
        | [] => 3
        end
      else 3 + utf8_length rest
  end.

End Validation.

(* ===================================================================== *)
(** ** DID document verifier: [src/lib/at-uri.ts], second part            *)
(* ===================================================================== *)

Module Verifier.
Import Eff.
Local Open Scope eff_scope.

Definition DID_DOC_CACHE_PREFIX : string := "barazo:did-doc:".
(** Soft TTL in seconds: triggers background refresh after this. *)
Definition DID_DOC_SOFT_TTL : Z := 3600.
(** Hard TTL in seconds: key expiry in the cache server. *)
Definition DID_DOC_HARD_TTL : Z := 7200.

Definition PLC_DIRECTORY_URL : string := "https://plc.directory".
Definition PLC_FETCH_TIMEOUT : Z := 5000.

Inductive DidVerificationResult : Type :=
| Active
| Inactive (reason : string).

Module CachedDidEntry.
Record t : Type := mk {
  active : bool;
  reason : option string;
  resolvedAt : Z
}.
End CachedDidEntry.

(** What the verifier reads of a fetch [Response]. *)
Module Response.
Record t : Type := mk {
  ok : bool;
  status : Z
}.
End Response.

(** [cache.get(key)] resolves to a string or [null], or rejects;
    [cache.set(key, value, 'EX', seconds)]. *)
Class Cache (E : Type) : Type := {
  cache_get : string -> E -> Result (option string) * E;
  cache_set : string -> string -> string -> Z -> E -> Result unit * E
}.

(** [fetch(url, { headers, signal: AbortSignal.timeout(ms) })]: a
    network failure or a timeout rejects. *)
Class Network (E : Type) : Type := {
  fetch : string -> Z -> E -> Result Response.t * E
}.

Class Clock (E : Type) : Type := {
  Date_now : E -> Z * E
}.

(** [JSON.stringify(entry)] and [JSON.parse(raw) as CachedDidEntry];
    parsing throws on text that is not an entry. *)
Class EntryJson : Type := {
  JSON_stringify_entry : CachedDidEntry.t -> string;
  JSON_parse_entry : string -> Result CachedDidEntry.t
}.

Inductive Call : Type :=
| CacheGet (key : string)
| CacheSet (key value mode : string) (ttl : Z)
| Fetch (url : string) (timeoutMs : Z).

(** Promise chains the verifier starts and does not await.  The request
    of each has already been issued when the chain is left behind. *)
Inductive Task : Type :=
| BackgroundRefresh (did url : string)
| CacheWrite (did key value : string).

Section Verify.
Context {E : Type} {cache : Cache E} {network : Network E} {clock : Clock E}
  {json : EntryJson}.
Notation M := (M E Call Task).

(** [resolveFromPlc] runs up to its [await]: the request is issued. *)
Definition resolveFromPlc_request (did : string) : M string :=
  let url := PLC_DIRECTORY_URL ++ "/" ++ did in
  issue (Fetch url PLC_FETCH_TIMEOUT) ;;
  ret url.

(** [resolveFromPlc] from its [await] on. *)
Definition resolveFromPlc_response (did url : string) : M DidVerificationResult :=
  response <- await (fetch url PLC_FETCH_TIMEOUT) ;;
  if Response.ok response then ret Active
  else if Response.status response =? 410 then
    ret (Inactive "DID has been tombstoned")
  else if Response.status response =? 404 then
    ret (Inactive "DID not found in PLC directory")
  else
    logAt warn [("did", LStr did); ("status", LNum (Response.status response))]
      "Unexpected PLC directory response" ;;
    throw ("PLC directory returned " ++ string_of_Z (Response.status response)).

Definition resolveFromPlc (did : string) : M DidVerificationResult :=
  url <- resolveFromPlc_request did ;;
  resolveFromPlc_response did url.

(** [cacheResult] runs up to its [await]: the entry is built and
    [cache.set] is issued. *)
Definition cacheResult_request (did : string) (result : DidVerificationResult)
  : M (string * string) :=
  now <- ask Date_now ;;
  let entry :=
    CachedDidEntry.mk
      (match result with Active => true | Inactive _ => false end)
      (match result with Active => None | Inactive reason => Some reason end)
      now in
  let key := DID_DOC_CACHE_PREFIX ++ did in
  let value := JSON_stringify_entry entry in
  issue (CacheSet key value "EX" DID_DOC_HARD_TTL) ;;
  ret (key, value).

(** [cacheResult] from its [await] on. *)
Definition cacheResult_response (key value : string) : M unit :=
  await (cache_set key value "EX" DID_DOC_HARD_TTL).

Definition cacheResult (did : string) (result : DidVerificationResult) : M unit :=
  kv <- cacheResult_request did result ;;
  cacheResult_response (fst kv) (snd kv).

(** [backgroundRefresh]: the chain
    [resolveFromPlc(did).then(...).catch(...)] is started and left. *)
Definition backgroundRefresh (did : string) : M unit :=
  url <- resolveFromPlc_request did ;;
  detach (BackgroundRefresh did url).

(** The verdict both cache-hit branches build from the entry. *)
Definition cachedVerdict (cachedEntry : CachedDidEntry.t) : DidVerificationResult :=
  if CachedDidEntry.active cachedEntry then Active
  else Inactive (match CachedDidEntry.reason cachedEntry with
                 | Some reason => reason
                 | None => "DID is not active"
                 end).

(** Step 1 of [verify], the [try] around the cache read.  [Some v] is a
    [return v] from inside the block, [None] falls through. *)
Definition tryCache (did : string) : M (option DidVerificationResult) :=
  try_catch
    (raw <- call (CacheGet (DID_DOC_CACHE_PREFIX ++ did))
                 (cache_get (DID_DOC_CACHE_PREFIX ++ did)) ;;
     match raw with
     | Some raw =>
         cachedEntry <- lift (JSON_parse_entry raw) ;;
         now <- ask Date_now ;;
         let age := now - CachedDidEntry.resolvedAt cachedEntry in
         let isPastSoftTtl := age >? DID_DOC_SOFT_TTL * 1000 in
         if negb isPastSoftTtl then
           ret (Some (cachedVerdict cachedEntry))
         else
           backgroundRefresh did ;;
           ret (Some (cachedVerdict cachedEntry))
     | None => ret None
     end)
    (fun err =>
       logAt warn [("err", LErr err); ("did", LStr did)] "DID document cache read failed" ;;
       ret None).

(** Step 2 of [verify]: resolve at the PLC directory. *)
Definition resolveAndCache (did : string) : M DidVerificationResult :=
  try_catch
    (result <- resolveFromPlc did ;;
     kv <- cacheResult_request did result ;;
     detach (CacheWrite did (fst kv) (snd kv)) ;;
     ret result)
    (fun err =>
       logAt error [("err", LErr err); ("did", LStr did)] "DID document resolution failed" ;;
       ret (Inactive "DID document resolution failed")).

Definition verify (did : string) : M DidVerificationResult :=
  if negb (String.prefix "did:plc:" did) then ret Active
  else
    fromCache <- tryCache did ;;
    match fromCache with
    | Some result => ret result
    | None => resolveAndCache did
    end.

(** The cache read of [verify] yields no entry and leaves the outside
    in state [e1]: the key is absent, the read fails, or the stored text
    does not parse. *)
Definition no_usable_cache_entry (did : string) (e e1 : E) : Prop :=
  cache_get (DID_DOC_CACHE_PREFIX ++ did) e = (Ok None, e1)
  \/ (exists err, cache_get (DID_DOC_CACHE_PREFIX ++ did) e = (Throw err, e1))
  \/ (exists raw err,
        cache_get (DID_DOC_CACHE_PREFIX ++ did) e = (Ok (Some raw), e1)
        /\ JSON_parse_entry raw = Throw err).

(** What a left-behind chain does once its request settles. *)
Definition run_task (t : Task) : M unit :=
  match t with
  | BackgroundRefresh did url =>
      try_catch
        (result <- resolveFromPlc_response did url ;;
         cacheResult did result ;;
         logAt debug [("did", LStr did)] "Background DID document refresh completed")
        (fun err =>
           logAt warn [("err", LErr err); ("did", LStr did)]
             "Background DID document refresh failed")
  | CacheWrite did key value =>
      try_catch
        (cacheResult_response key value)
        (fun err =>
           logAt warn [("err", LErr err); ("did", LStr did)]
             "Failed to cache DID verification result")
  end.

Fixpoint run_tasks (ts : list Task) : M unit :=
  match ts with
  | [] => ret tt
  | t :: ts' => run_task t ;; run_tasks ts'
  end.

(** The event loop settles every chain left behind. *)
Definition drain : M unit :=
  fun w => run_tasks (pending w) (mkWorld (ext w) (log w) (calls w) []).

End Verify.

End Verifier.

(* ===================================================================== *)
(** ** Record event handler: [src/firehose/handlers/record.ts]           *)
(* ===================================================================== *)

Module Handler.
Import Eff Types Validation.
Local Open Scope eff_scope.

(** Rows of the three selects. *)
Module ReplyRow.
Record t : Type := mk { rootUri : string }.
End ReplyRow.

Module ReactionRow.
Record t : Type := mk { subjectUri : string }.
End ReactionRow.

Module UserRow.
Record t : Type := mk {
  did : string;
  accountCreatedAt : option Clamp.Date
}.
End UserRow.

(** The queries [RecordHandler] runs through drizzle. *)
Class Database (E : Type) : Type := {
  select_reply_rootUri : string -> E -> Result (list ReplyRow.t) * E;
  select_reaction_subjectUri : string -> E -> Result (list ReactionRow.t) * E;
  select_user : string -> E -> Result (list UserRow.t) * E;
  update_user_accountCreatedAt : string -> Clamp.Date -> E -> Result unit * E;
  insert_user : string -> string -> option Clamp.Date -> E -> Result unit * E
}.

Class AccountAgeService (E : Type) : Type := {
  resolveCreationDate : string -> E -> Result (option Clamp.Date) * E;
  determineTrustStatus : option Clamp.Date -> E -> Result TrustStatus * E
}.

(** [TopicIndexer], [ReplyIndexer] and [ReactionIndexer]. *)
Class Indexers (E Doc : Type) : Type := {
  topic_handleCreate : Params.t Doc -> E -> Result unit * E;
  reply_handleCreate : Params.t Doc -> E -> Result unit * E;
  reaction_handleCreate : Params.t Doc -> E -> Result unit * E;
  topic_handleUpdate : Params.t Doc -> E -> Result unit * E;
  reply_handleUpdate : Params.t Doc -> E -> Result unit * E;
  topic_handleDelete : string -> string -> string -> E -> Result unit * E;
  reply_handleDelete : string -> string -> string -> string -> E -> Result unit * E;
  reaction_handleDelete : string -> string -> string -> string -> E -> Result unit * E
}.

Section RecordHandler.
Context {E Doc : Type}.
Context {serializer : Serializable Doc} {lexicons : Lexicons Doc}.
Context {db : Database E} {accountAgeService : AccountAgeService E}
  {indexers : Indexers E Doc}.
Notation M := (M E (Call Doc) Empty_set).

Definition dispatchCreate (indexerName : option string) (params : Params.t Doc) : M unit :=
  match indexerName with
  | Some name =>
      if String.eqb name "topic" then
        call (TopicHandleCreate params) (topic_handleCreate params)
      else if String.eqb name "reply" then
        call (ReplyHandleCreate params) (reply_handleCreate params)
      else if String.eqb name "reaction" then
        call (ReactionHandleCreate params) (reaction_handleCreate params)
      else ret tt
  | None => ret tt
  end.

Definition dispatchUpdate (indexerName : option string) (params : Params.t Doc) : M unit :=
  match indexerName with
  | Some name =>
      if String.eqb name "topic" then
        call (TopicHandleUpdate params) (topic_handleUpdate params)
      else if String.eqb name "reply" then
        call (ReplyHandleUpdate params) (reply_handleUpdate params)
      else ret tt (* Reactions don't have update *)
  | None => ret tt
  end.

(** [rows[0]?.rootUri ?? ''] and [rows[0]?.subjectUri ?? '']. *)
Definition first_rootUri (rows : list ReplyRow.t) : string :=
  match rows with
  | row :: _ => ReplyRow.rootUri row
  | [] => ""
  end.

Definition first_subjectUri (rows : list ReactionRow.t) : string :=
  match rows with
  | row :: _ => ReactionRow.subjectUri row
  | [] => ""
  end.

Definition dispatchDelete (indexerName : option string) (uri rkey did : string) : M unit :=
  match indexerName with
  | Some name =>
      if String.eqb name "topic" then
        call (TopicHandleDelete uri rkey did) (topic_handleDelete uri rkey did)
      else if String.eqb name "reply" then
        replyRows <- call (DbSelectReplyRootUri uri) (select_reply_rootUri uri) ;;
        let rootUri := first_rootUri replyRows in
        (if String.eqb rootUri "" then
           logAt debug [("uri", LStr uri)]
             "Reply not found in DB for delete, count decrement will be skipped"
         else ret tt) ;;
        call (ReplyHandleDelete uri rkey did rootUri)
             (reply_handleDelete uri rkey did rootUri)
      else if String.eqb name "reaction" then
        reactionRows <- call (DbSelectReactionSubjectUri uri) (select_reaction_subjectUri uri) ;;
        let subjectUri := first_subjectUri reactionRows in
        (if String.eqb subjectUri "" then
           logAt debug [("uri", LStr uri)]
             "Reaction not found in DB for delete, count decrement will be skipped"
         else ret tt) ;;
        call (ReactionHandleDelete uri rkey did subjectUri)
             (reaction_handleDelete uri rkey did subjectUri)
      else ret tt
  | None => ret tt
  end.

(** [createdAt?.toISOString()], as a log value; an Invalid Date throws. *)
Definition toISOString_opt (createdAt : option Clamp.Date) : M LogValue :=
  match createdAt with
  | None => ret LUndefined
  | Some (Clamp.DateAt t) => ret (LDate t)
  | Some Clamp.InvalidDate => throw "RangeError: Invalid time value"
  end.

(** The [try] block of [upsertUserWithTrustCheck]. *)
Definition upsertUserWithTrustCheck_try (did : string) : M TrustStatus :=
  existing <- call (DbSelectUser did) (select_user did) ;;
  match existing with
  | user :: _ =>
      match UserRow.accountCreatedAt user with
      | Some accountCreatedAt =>
          call (DetermineTrustStatus (Some accountCreatedAt))
               (determineTrustStatus (Some accountCreatedAt))
      | None =>
          (* Legacy row without accountCreatedAt -- resolve now *)
          createdAt <- call (ResolveCreationDate did) (resolveCreationDate did) ;;
          match createdAt with
          | Some d =>
              call (DbUpdateUserAccountCreatedAt did d)
                   (update_user_accountCreatedAt did d)
          | None => ret tt
          end ;;
          call (DetermineTrustStatus createdAt) (determineTrustStatus createdAt)
      end
  | [] =>
      (* New user -- resolve account creation date before inserting *)
      createdAt <- call (ResolveCreationDate did) (resolveCreationDate did) ;;
      call (DbInsertUser did did createdAt) (insert_user did did createdAt) ;;
      trustStatus <- call (DetermineTrustStatus createdAt)
                          (determineTrustStatus createdAt) ;;
      match trustStatus with
      | new =>
          iso <- toISOString_opt createdAt ;;
          logAt info [("did", LStr did); ("accountCreatedAt", iso)]
            "New account detected (< 24h old), indexing with trust_status: new"
      | trusted => ret tt
      end ;;
      ret trustStatus
  end.

Definition upsertUserWithTrustCheck (did : string) : M TrustStatus :=
  try_catch
    (upsertUserWithTrustCheck_try did)
    (fun err =>
       logAt error [("err", LErr err); ("did", LStr did)]
         "Failed to upsert user with trust check" ;;
       ret trusted (* Fail open -- don't block indexing *)).

(** The [try] block of [handle]. *)
Definition handle_try (event : RecordEvent.t Doc) : M unit :=
  let collection := RecordEvent.collection event in
  let action := RecordEvent.action event in
  let did := RecordEvent.did event in
  let rkey := RecordEvent.rkey event in
  if negb (isSupportedCollection collection) then ret tt
  else
    let uri := "at://" ++ did ++ "/" ++ collection ++ "/" ++ rkey in
    let indexerName := COLLECTION_MAP collection in
    match action with
    | delete => dispatchDelete indexerName uri rkey did
    | _ =>
        match RecordEvent.record event with
        | None =>
            logAt warn [("collection", LStr collection);
                        ("action", LStr (action_name action));
                        ("did", LStr did); ("rkey", LStr rkey)]
              "Record event missing record data"
        | Some record =>
            validation <- validateRecord collection record ;;
            match validation with
            | Failure message =>
                logAt debug [("collection", LStr collection); ("did", LStr did);
                             ("rkey", LStr rkey); ("error", LStr message)]
                  "Record validation failed"
            | Success _ =>
                trustStatus <- match action with
                               | create => upsertUserWithTrustCheck did
                               | _ => ret trusted
                               end ;;
                let params :=
                  Params.mk uri rkey did
                    (match RecordEvent.cid event with Some c => c | None => "" end)
                    record (RecordEvent.live event) trustStatus in
                match action with
                | create => dispatchCreate indexerName params
                | _ => dispatchUpdate indexerName params
                end
            end
        end
    end.

Definition handle (event : RecordEvent.t Doc) : M unit :=
  try_catch
    (handle_try event)
    (fun err =>
       logAt error
         [("err", LErr err); ("eventId", LNum (RecordEvent.id event));
          ("collection", LStr (RecordEvent.collection event))]
         "Error handling record event").

End RecordHandler.

End Handler.

(* ===================================================================== *)
(** ** JSON documents and their serialization                            *)
(* ===================================================================== *)

Module Json.
Import Eff Validation.
Local Open Scope list_scope.

(** Record payloads as they arrive decoded from the firehose.  Numbers
    are integers below 1e21 in magnitude, which [JSON.stringify] prints
    in plain decimal; object members are listed in property order. *)
#[local] Unset Elimination Schemes.
Inductive t : Type :=
| Null
| Bool (b : bool)
| Number (n : Z)
| Str (s : JSString)
| Array (items : list t)
| Object (members : list (JSString * t)).
#[local] Set Elimination Schemes.

(** The code units of an ASCII literal. *)
Definition units (s : string) : JSString :=
  map (fun a => Z.of_N (N_of_ascii a)) (list_ascii_of_string s).

Definition hex_digit (n : Z) : Z := if n <? 10 then 48 + n else 87 + n.

(** The six units of a lower-case unicode escape sequence. *)
Definition unicode_escape (c : Z) : JSString :=
  [92; 117; hex_digit (c / 4096); hex_digit ((c / 256) mod 16);
   hex_digit ((c / 16) mod 16); hex_digit (c mod 16)].

(** ECMAScript QuoteJSONString, without the enclosing quotes. *)
Fixpoint quote_units (s : JSString) : JSString :=
  match s with
  | [] => []
  | c :: rest =>
      if c =? 8 then [92; 98] ++ quote_units rest
      else if c =? 9 then [92; 116] ++ quote_units rest
      else if c =? 10 then [92; 110] ++ quote_units rest
      else if c =? 12 then [92; 102] ++ quote_units rest
      else if c =? 13 then [92; 114] ++ quote_units rest
      else if c =? 34 then [92; 34] ++ quote_units rest
      else if c =? 92 then [92; 92] ++ quote_units rest
      else if c <? 32 then unicode_escape c ++ quote_units rest
      else if is_high_surrogate c then
        match rest with
        | d :: rest' =>
            if is_low_surrogate d then c :: d :: quote_units rest'
            else unicode_escape c ++ quote_units rest
        | [] => unicode_escape c
        end
      else if is_low_surrogate c then unicode_escape c ++ quote_units rest
      else c :: quote_units rest
  end.

Definition quote (s : JSString) : JSString := [34] ++ quote_units s ++ [34].

Fixpoint join_comma (parts : list JSString) : JSString :=
  match parts with
  | [] => []
  | [p] => p
  | p :: rest => p ++ [44] ++ join_comma rest
  end.

(** [JSON.stringify(v)] with no indentation. *)
Fixpoint stringify (v : t) : JSString :=
  match v with
  | Null => units "null"
  | Bool b => units (if b then "true" else "false")
  | Number n => units (string_of_Z n)
  | Str s => quote s
  | Array items => [91] ++ join_comma (map stringify items) ++ [93]
  | Object members =>
      [123]
      ++ join_comma (map (fun kv => quote (fst kv) ++ [58] ++ stringify (snd kv)) members)
      ++ [125]
  end.

#[global] Instance Serializable_Json : Serializable t := {
  JSON_stringify v := Ok (Some (stringify v))
}.

End Json.

(* ===================================================================== *)
(** ** Test doubles                                                      *)
(* ===================================================================== *)

(** Concrete collaborators in the manner of the mocks of
    [tests/unit/lib/did-document-verifier.test.ts]: an in-memory cache
    that can be switched off, a directory with a scripted answer, a
    database with scripted rows. *)
Module Fixtures.
Import Eff Types Validation Verifier Handler.

Record Outside : Type := mkOutside {
  cacheEntries : list (string * string);
  cacheDown : bool;
  clockMs : Z;
  plcAnswer : Result Response.t;
  dbDown : bool;
  replyRows : list (string * string);
  reactionRows : list (string * string);
  userRows : list UserRow.t;
  creationDate : Result (option Clamp.Date);
  indexerDown : bool
}.

Definition with_cacheEntries (l : list (string * string)) (e : Outside) : Outside :=
  mkOutside l (cacheDown e) (clockMs e) (plcAnswer e) (dbDown e) (replyRows e)
    (reactionRows e) (userRows e) (creationDate e) (indexerDown e).

Fixpoint assoc (key : string) (l : list (string * string)) : option string :=
  match l with
  | [] => None
  | (k, v) :: rest => if String.eqb key k then Some v else assoc key rest
  end.

#[global] Instance Cache_Outside : Cache Outside := {
  cache_get key e :=
    if cacheDown e then (Throw "Valkey down", e) else (Ok (assoc key (cacheEntries e)), e);
  cache_set key value mode ttl e :=
    if cacheDown e then (Throw "Valkey down", e)
    else (Ok tt, with_cacheEntries ((key, value) :: cacheEntries e) e)
}.

#[global] Instance Network_Outside : Network Outside := {
  fetch url timeoutMs e := (plcAnswer e, e)
}.

#[global] Instance Clock_Outside : Clock Outside := {
  Date_now e := (clockMs e, e)
}.

(** A line format for cache entries: [A] or [I], the decimal
    [resolvedAt], a colon, the reason. *)
Fixpoint split_colon (s : string) : string * string :=
  match s with
  | EmptyString => (EmptyString, EmptyString)
  | String c rest =>
      if Ascii.eqb c ":" then (EmptyString, rest)
      else let (a, b) := split_colon rest in (String c a, b)
  end.

#[global] Instance EntryJson_lines : EntryJson := {
  JSON_stringify_entry entry :=
    (if CachedDidEntry.active entry then "A" else "I")
    ++ string_of_Z (CachedDidEntry.resolvedAt entry) ++ ":"
    ++ match CachedDidEntry.reason entry with Some r => r | None => "" end;
  JSON_parse_entry raw :=
    match raw with
    | String c rest =>
        let (num, reason) := split_colon rest in
        match NilZero.int_of_string num with
        | Some n =>
            if Ascii.eqb c "A" then Ok (CachedDidEntry.mk true None (Z.of_int n))
            else Ok (CachedDidEntry.mk false (Some reason) (Z.of_int n))
        | None => Throw "SyntaxError: Unexpected token"
        end
    | EmptyString => Throw "SyntaxError: Unexpected end of JSON input"
    end
}.

Definition rows_for (uri : string) (l : list (string * string)) : list string :=
  map snd (filter (fun kv => String.eqb (fst kv) uri) l).

#[global] Instance Database_Outside : Database Outside := {
  select_reply_rootUri uri e :=
    if dbDown e then (Throw "Connection lost", e)
    else (Ok (map ReplyRow.mk (rows_for uri (replyRows e))), e);
  select_reaction_subjectUri uri e :=
    if dbDown e then (Throw "Connection lost", e)
    else (Ok (map ReactionRow.mk (rows_for uri (reactionRows e))), e);
  select_user did e :=
    if dbDown e then (Throw "Connection lost", e)
    else (Ok (filter (fun u => String.eqb (UserRow.did u) did) (userRows e)), e);
  update_user_accountCreatedAt did createdAt e :=
    if dbDown e then (Throw "Connection lost", e) else (Ok tt, e);
  insert_user did handle createdAt e :=
    if dbDown e then (Throw "Connection lost", e) else (Ok tt, e)
}.

(** "new" when the account was created less than 24 hours before now. *)
#[global] Instance AccountAge_Outside : AccountAgeService Outside := {
  resolveCreationDate did e := (creationDate e, e);
  determineTrustStatus createdAt e :=
    match createdAt with
    | Some (Clamp.DateAt t) =>
        (Ok (if clockMs e - t <? 24 * 60 * 60 * 1000 then new else trusted), e)
    | _ => (Ok trusted, e)
    end
}.

Definition indexer_answer (e : Outside) : Result unit * Outside :=
  if indexerDown e then (Throw "indexer failed", e) else (Ok tt, e).

#[global] Instance Indexers_Outside : Indexers Outside Json.t := {
  topic_handleCreate _ := indexer_answer;
  reply_handleCreate _ := indexer_answer;
  reaction_handleCreate _ := indexer_answer;
  topic_handleUpdate _ := indexer_answer;
  reply_handleUpdate _ := indexer_answer;
  topic_handleDelete _ _ _ := indexer_answer;
  reply_handleDelete _ _ _ _ := indexer_answer;
  reaction_handleDelete _ _ _ _ := indexer_answer
}.

(** A schema double that accepts every object and nothing else. *)
#[global] Instance Lexicons_objects : Lexicons Json.t := {
  safeParse schema record :=
    match record with
    | Json.Object _ => Ok true
    | _ => Ok false
    end
}.

(** Everything up, nothing stored; the clock of the clamp tests. *)
Definition quiet : Outside :=
  mkOutside [] false 1771502400000 (Ok (Response.mk true 200)) false [] [] []
    (Ok None) false.

Definition TEST_DID : string := "did:plc:abc123def456".

(** The directory answers with the given status. *)
Definition answering (ok : bool) (status : Z) : Outside :=
  mkOutside [] false 1771502400000 (Ok (Response.mk ok status)) false [] [] []
    (Ok None) false.

(** The directory cannot be reached. *)
Definition unreachable : Outside :=
  mkOutside [] false 1771502400000 (Throw "Network error") false [] [] []
    (Ok None) false.

(** An active entry for [TEST_DID] resolved [minutes] ago; the directory
    gives [answer]. *)
Definition cached (minutes : Z) (answer : Result Response.t) : Outside :=
  mkOutside
    [(DID_DOC_CACHE_PREFIX ++ TEST_DID,
      JSON_stringify_entry
        (CachedDidEntry.mk true None (1771502400000 - minutes * 60 * 1000)))]
    false 1771502400000 answer false [] [] [] (Ok None) false.

Definition start {C T : Type} (e : Outside) : World Outside C T := mkWorld e [] [] [].

(** A record whose text is 30000 euro signs (U+20AC). *)
Definition euro_record : Json.t :=
  Json.Object [(Json.units "text", Json.Str (repeat 8364 (Z.to_nat 30000)))].

(** The database and the account age service both fail. *)
Definition outage : Outside :=
  mkOutside [] false 1771502400000 (Ok (Response.mk true 200)) true [] [] []
    (Throw "PLC directory unavailable") false.

(** No user row; the account was created [minutes] before now. *)
Definition account_aged (minutes : Z) : Outside :=
  mkOutside [] false 1771502400000 (Ok (Response.mk true 200)) false [] [] []
    (Ok (Some (Clamp.DateAt (1771502400000 - minutes * 60 * 1000)))) false.

(** Every indexer call fails. *)
Definition indexers_failing : Outside :=
  mkOutside [] false 1771502400000 (Ok (Response.mk true 200)) false [] [] []
    (Ok None) true.

Definition small_record : Json.t :=
  Json.Object [(Json.units "content", Json.Str (Json.units "hello"))].

Definition event_of (collection : string) (action : Action) (record : option Json.t)
  : RecordEvent.t Json.t :=
  RecordEvent.mk 42 collection action TEST_DID "3kabc" record (Some "bafyrei") true.

Definition uri_of (collection : string) : string :=
  "at://" ++ TEST_DID ++ "/" ++ collection ++ "/" ++ "3kabc".

Definition params_of (collection : string) (trustStatus : TrustStatus)
  : Params.t Json.t :=
  Params.mk (uri_of collection) "3kabc" TEST_DID "bafyrei" small_record true trustStatus.

(** A record whose text is 70000 letters [a]. *)
Definition long_ascii_record : Json.t :=
  Json.Object [(Json.units "text", Json.Str (repeat 97 (Z.to_nat 70000)))].

End Fixtures.

(* ===================================================================== *)
(** ** AT URI helpers: [src/lib/at-uri.ts], first part, and the         *)
(** ** moderation routes                                                 *)
(* ===================================================================== *)

Module AtUri.
Import Eff.

(** [s.split('/')]: the parts between the slashes, at least one. *)
Fixpoint split_slash (s : string) : list string :=
  match s with
  | EmptyString => [EmptyString]
  | String c rest =>
      if Ascii.eqb c "/" then EmptyString :: split_slash rest
      else match split_slash rest with
           | part :: parts => String c part :: parts
           | [] => [String c EmptyString]
           end
  end.

(** [extractRkey]: [parts[parts.length - 1]] is [undefined] ([None]) out
    of range; [!rkey] holds of [undefined] and of the empty string. *)
Definition extractRkey (uri : string) : Result string :=
  let parts := split_slash uri in
  match nth_error parts (List.length parts - 1) with
  | Some rkey =>
      if String.eqb rkey "" then Throw "Invalid AT URI: missing rkey"
      else Ok rkey
  | None => Throw "Invalid AT URI: missing rkey"
  end.

(** [s.slice(n)] for [n] within the string. *)
Fixpoint drop (n : nat) (s : string) : string :=
  match n, s with
  | O, _ => s
  | S n', String _ rest => drop n' rest
  | S _, EmptyString => EmptyString
  end.

(** The longest run of characters other than the slash at the front of
    a string, and what follows it: the greedy [[^/]+] of the pattern. *)
Fixpoint span_not_slash (s : string) : string * string :=
  match s with
  | EmptyString => (EmptyString, EmptyString)
  | String c rest =>
      if Ascii.eqb c "/" then (EmptyString, s)
      else let (run, tail) := span_not_slash rest in (String c run, tail)
  end.

(** [extractDidFromUri] of the moderation routes: group 1 of
    [/^at:\/\/(did:[^/]+)\//], or [undefined] when there is no match.
    The run matched by [[^/]+] cannot be cut short, since the slash
    that must follow is not in it. *)
Definition extractDidFromUri (uri : string) : option string :=
  if String.prefix "at://did:" uri then
    let (run, tail) := span_not_slash (drop 9 uri) in
    match run, tail with
    | String _ _, String c _ =>
        if Ascii.eqb c "/" then Some ("did:" ++ run) else None
    | _, _ => None
    end
  else None.

(** Whether a string contains a slash. *)
Fixpoint has_slash (s : string) : bool :=
  match s with
  | EmptyString => false
  | String c rest => Ascii.eqb c "/" || has_slash rest
  end.

End AtUri.

(* ===================================================================== *)
(** ** Setup service: [src/lib/api-errors.ts], second part               *)
(* ===================================================================== *)

Module Setup.
Import Eff.
Local Open Scope eff_scope.

(** The columns both selects read of the settings row. *)
Module SettingsRow.
Record t : Type := mk {
  initialized : bool;
  communityName : string
}.
End SettingsRow.

Inductive SetupStatus : Type :=
| NotInitialized
| Initialized (communityName : string).

Inductive InitializeResult : Type :=
| InitializedNow (adminDid communityName : string)
| AlreadyInitialized.

(** The three queries on [communitySettings], row ["default"]. *)
Class SettingsDb (E : Type) : Type := {
  select_settings : E -> Result (list SettingsRow.t) * E;
  update_settings : bool -> string -> string -> Z -> E -> Result unit * E;
  insert_settings : string -> bool -> string -> string -> E -> Result unit * E
}.

Inductive Call : Type :=
| DbSelectSettings
| DbUpdateSettings (initialized : bool) (adminDid communityName : string) (updatedAt : Z)
| DbInsertSettings (id : string) (initialized : bool) (adminDid communityName : string).

Definition is_write (c : Call) : bool :=
  match c with
  | DbSelectSettings => false
  | _ => true
  end.

Definition DEFAULT_COMMUNITY_NAME : string := "ATgora Community".

(** [communityName ?? existing?.communityName ?? DEFAULT_COMMUNITY_NAME]. *)
Definition finalName (communityName : option string) (existing : option SettingsRow.t)
  : string :=
  match communityName with
  | Some name => name
  | None =>
      match existing with
      | Some row => SettingsRow.communityName row
      | None => DEFAULT_COMMUNITY_NAME
      end
  end.

Section Service.
Context {E : Type} {db : SettingsDb E} {clock : Verifier.Clock E}.
Notation M := (M E Call Empty_set).

Definition getStatus : M SetupStatus :=
  try_catch
    (rows <- call DbSelectSettings select_settings ;;
     match rows with
     | row :: _ =>
         if negb (SettingsRow.initialized row) then ret NotInitialized
         else ret (Initialized (SettingsRow.communityName row))
     | [] => ret NotInitialized
     end)
    (fun err =>
       logAt error [("err", LErr err)] "Failed to get setup status" ;;
       throw err).

Definition initialize (did : string) (communityName : option string)
  : M InitializeResult :=
  try_catch
    (rows <- call DbSelectSettings select_settings ;;
     match rows with
     | existing :: _ =>
         if SettingsRow.initialized existing then
           (* Already initialized: conflict *)
           logAt warn [("did", LStr did)]
             "Setup initialize attempted on already-initialized community" ;;
           ret AlreadyInitialized
         else
           (* Row exists but not initialized: update it *)
           let name := finalName communityName (Some existing) in
           now <- ask Verifier.Date_now ;;
           call (DbUpdateSettings true did name now)
                (update_settings true did name now) ;;
           logAt info [("did", LStr did); ("communityName", LStr name)]
             "Community initialized (updated existing row)" ;;
           ret (InitializedNow did name)
     | [] =>
         (* No row exists: insert a new one *)
         let name := finalName communityName None in
         call (DbInsertSettings "default" true did name)
              (insert_settings "default" true did name) ;;
         logAt info [("did", LStr did); ("communityName", LStr name)]
           "Community initialized (inserted new row)" ;;
         ret (InitializedNow did name)
     end)
    (fun err =>
       logAt error [("err", LErr err); ("did", LStr did)]
         "Failed to initialize community" ;;
       throw err).

End Service.

End Setup.

(* ===================================================================== *)
(** ** HTTP replies                                                      *)
(* ===================================================================== *)

Module Http.

(** A reply body: the [{ error }] object the hooks and routes send, or a
    route's own payload. *)
Inductive Body (P : Type) : Type :=
| ErrorBody (error : string)
| Payload (p : P).
Arguments ErrorBody {P} error.
Arguments Payload {P} p.

(** What the code reads and sets of a Fastify reply: [reply.sent] holds
    once a body was sent. *)
Module Reply.
Record t (P : Type) : Type := mk {
  statusCode : Z;
  sent : option (Body P)
}.
Arguments mk {P}.
Arguments statusCode {P}.
Arguments sent {P}.
End Reply.

(** [reply.status(code).send(body)]. *)
Definition send {P} (code : Z) (body : Body P) (reply : Reply.t P) : Reply.t P :=
  Reply.mk code (Some body).

(** A reply nothing was sent on. *)
Definition unsent {P} : Reply.t P := Reply.mk 200 None.

Definition was_sent {P} (reply : Reply.t P) : bool :=
  match Reply.sent reply with
  | Some _ => true
  | None => false
  end.

End Http.

(* ===================================================================== *)
(** ** Auth hooks: [src/auth/middleware.ts], [src/auth/require-admin.ts] *)
(* ===================================================================== *)

Module Auth.
Import Eff Http.
Local Open Scope eff_scope.

Module RequestUser.
Record t : Type := mk {
  did : string;
  handle : string;
  sid : string
}.
End RequestUser.

(** The fields of a [Session] ([src/auth/session.ts]) the hooks read. *)
Module Session.
Record t : Type := mk {
  sid : string;
  did : string;
  handle : string
}.
End Session.

(** What the hooks read and set of a Fastify request. *)
Module Request.
Record t : Type := mk {
  authorization : option string;
  user : option RequestUser.t
}.
End Request.

(** The column [requireAdmin] reads of a [users] row. *)
Module UserRoleRow.
Record t : Type := mk { role : string }.
End UserRoleRow.

Class SessionService (E : Type) : Type := {
  validateAccessToken : string -> E -> Result (option Session.t) * E
}.

Class DidDocumentVerifier (E : Type) : Type := {
  didVerifier_verify : string -> E -> Result Verifier.DidVerificationResult * E
}.

Class UsersDb (E : Type) : Type := {
  select_users_by_did : string -> E -> Result (list UserRoleRow.t) * E
}.

Inductive Call : Type :=
| ValidateAccessToken (token : string)
| VerifyDid (did : string)
| DbSelectUserByDid (did : string).

(** [extractBearerToken].  [!authHeader] holds of a missing header and
    of the empty string. *)
Definition extractBearerToken (request : Request.t) : option string :=
  match Request.authorization request with
  | None => None
  | Some authHeader =>
      if String.eqb authHeader "" || negb (String.prefix "Bearer " authHeader) then None
      else
        let token := AtUri.drop (String.length "Bearer ") authHeader in
        if Nat.eqb (String.length token) 0 then None
        else Some token
  end.

(** [isResolutionFailure]. *)
Definition isResolutionFailure (result : Verifier.DidVerificationResult) : bool :=
  match result with
  | Verifier.Active => false
  | Verifier.Inactive reason => String.eqb reason "DID document resolution failed"
  end.

Definition user_of (session : Session.t) : RequestUser.t :=
  RequestUser.mk (Session.did session) (Session.handle session) (Session.sid session).

Section Hooks.
Context {E P : Type}.
Context {sessionService : SessionService E} {didVerifier : DidDocumentVerifier E}.
Notation M := (M E Call Empty_set).

(** The hooks mutate [request] and [reply]; here they hand both back. *)
Definition requireAuth (request : Request.t) (reply : Reply.t P)
  : M (Request.t * Reply.t P) :=
  match extractBearerToken request with
  | None => ret (request, send 401 (ErrorBody "Authentication required") reply)
  | Some token =>
      try_catch
        (session <- call (ValidateAccessToken token) (validateAccessToken token) ;;
         match session with
         | None =>
             ret (request, send 401 (ErrorBody "Invalid or expired token") reply)
         | Some session =>
             (* Verify DID document is still active *)
             didResult <- call (VerifyDid (Session.did session))
                               (didVerifier_verify (Session.did session)) ;;
             match didResult with
             | Verifier.Inactive reason =>
                 if isResolutionFailure didResult then
                   (* Transient failure with no cached data -- fail closed *)
                   logAt error [("did", LStr (Session.did session)); ("reason", LStr reason)]
                     "DID verification failed" ;;
                   ret (request,
                        send 502 (ErrorBody "Service temporarily unavailable") reply)
                 else
                   (* DID is definitively deactivated/tombstoned/not found *)
                   logAt warn [("did", LStr (Session.did session)); ("reason", LStr reason)]
                     "DID is no longer active" ;;
                   ret (request, send 401 (ErrorBody "DID is no longer active") reply)
             | Verifier.Active =>
                 ret (Request.mk (Request.authorization request) (Some (user_of session)),
                      reply)
             end
         end)
        (fun err =>
           logAt error [("err", LErr err)] "Token validation failed in requireAuth" ;;
           ret (request, send 502 (ErrorBody "Service temporarily unavailable") reply))
  end.

Definition optionalAuth (request : Request.t) (reply : Reply.t P)
  : M (Request.t * Reply.t P) :=
  match extractBearerToken request with
  | None => ret (request, reply)
  | Some token =>
      try_catch
        (session <- call (ValidateAccessToken token) (validateAccessToken token) ;;
         match session with
         | None => ret (request, reply)
         | Some session =>
             didResult <- call (VerifyDid (Session.did session))
                               (didVerifier_verify (Session.did session)) ;;
             match didResult with
             | Verifier.Inactive reason =>
                 logAt warn [("did", LStr (Session.did session)); ("reason", LStr reason)]
                   "DID verification failed in optionalAuth, continuing unauthenticated" ;;
                 ret (request, reply)
             | Verifier.Active =>
                 ret (Request.mk (Request.authorization request) (Some (user_of session)),
                      reply)
             end
         end)
        (fun err =>
           logAt warn [("err", LErr err)]
             "Token validation failed in optionalAuth, continuing unauthenticated" ;;
           ret (request, reply))
  end.

(** The hook [createRequireAdmin(db, authMiddleware)] returns. *)
Definition requireAdmin {usersDb : UsersDb E}
    (authMiddleware_requireAuth : Request.t -> Reply.t P -> M (Request.t * Reply.t P))
    (request : Request.t) (reply : Reply.t P) : M (Request.t * Reply.t P) :=
  (* First, run requireAuth to verify authentication *)
  authed <- authMiddleware_requireAuth request reply ;;
  let request := fst authed in
  let reply := snd authed in
  (* If requireAuth sent a response (e.g. 401), stop here *)
  if was_sent reply then ret (request, reply)
  else
    match Request.user request with
    | None => ret (request, send 403 (ErrorBody "Admin access required") reply)
    | Some user =>
        rows <- call (DbSelectUserByDid (RequestUser.did user))
                     (select_users_by_did (RequestUser.did user)) ;;
        match rows with
        | userRow :: _ =>
            if negb (String.eqb (UserRoleRow.role userRow) "admin") then
              ret (request, send 403 (ErrorBody "Admin access required") reply)
            else ret (request, reply)
        | [] => ret (request, send 403 (ErrorBody "Admin access required") reply)
        end
    end.

End Hooks.

(** [createAuthMiddleware] given the verifier of this repository: the
    outside of the hooks is then the verifier's whole world. *)
#[global] Instance DidDocumentVerifier_verify {E : Type}
    {cache : Verifier.Cache E} {network : Verifier.Network E}
    {clock : Verifier.Clock E} {json : Verifier.EntryJson}
  : DidDocumentVerifier (World E Verifier.Call Verifier.Task) := {
  didVerifier_verify did := Verifier.verify did
}.

End Auth.

(* ===================================================================== *)
(** ** Setup routes: [src/routes/setup.ts]                               *)
(* ===================================================================== *)

Module SetupRoutes.
Import Eff Http Setup.
Local Open Scope eff_scope.

(** What the two routes send with status 200. *)
Inductive SetupPayload : Type :=
| StatusPayload (status : SetupStatus)
| InitializePayload (result : InitializeResult).

(** [initializeBodySchema.safeParse(request.body)]: [None] when it does
    not succeed, else [parsed.data.communityName]. *)
Class InitializeBodySchema (RawBody : Type) : Type := {
  initializeBody_safeParse : RawBody -> option (option string)
}.

Section Routes.
Context {E RawBody : Type} {db : SettingsDb E} {clock : Verifier.Clock E}
  {schema : InitializeBodySchema RawBody}.
Notation M := (M E Call Empty_set).
Notation Reply := (Reply.t SetupPayload).

(** The handler of [GET /api/setup/status]. *)
Definition getStatusHandler (reply : Reply) : M Reply :=
  try_catch
    (status <- getStatus ;;
     ret (send 200 (Payload (StatusPayload status)) reply))
    (fun err =>
       logAt error [("err", LErr err)] "Failed to get setup status" ;;
       ret (send 502 (ErrorBody "Service temporarily unavailable") reply)).

(** The handler of [POST /api/setup/initialize], which runs after the
    [requireAuth] hook. *)
Definition initializeHandler (body : RawBody) (request : Auth.Request.t) (reply : Reply)
  : M Reply :=
  match initializeBody_safeParse body with
  | None => ret (send 400 (ErrorBody "Invalid request body") reply)
  | Some communityName =>
      match Auth.Request.user request with
      | None => ret (send 401 (ErrorBody "Authentication required") reply)
      | Some user =>
          try_catch
            (result <- initialize (Auth.RequestUser.did user) communityName ;;
             match result with
             | AlreadyInitialized =>
                 ret (send 409 (ErrorBody "Community already initialized") reply)
             | InitializedNow _ _ =>
                 ret (send 200 (Payload (InitializePayload result)) reply)
             end)
            (fun err =>
               logAt error [("err", LErr err)] "Failed to initialize community" ;;
               ret (send 502 (ErrorBody "Service temporarily unavailable") reply))
      end
  end.

End Routes.

End SetupRoutes.

(* ===================================================================== *)
(** ** Test doubles for the hooks and the setup service                  *)
(* ===================================================================== *)

Module MoreFixtures.
Import Eff Http Auth Setup SetupRoutes Fixtures.

Definition alice : Session.t :=
  Session.mk "sid-1" "did:plc:abc123def456" "alice.bsky.social".

(** A session service that knows one token, a verifier with a scripted
    verdict and a users table of [(did, role)] pairs. *)
Record AuthOutside : Type := mkAuthOutside {
  sessionsDown : bool;
  verdict : Result Verifier.DidVerificationResult;
  roles : list (string * string);
  usersDown : bool
}.

#[global] Instance SessionService_AuthOutside : SessionService AuthOutside := {
  validateAccessToken token e :=
    if sessionsDown e then (Throw "Valkey down", e)
    else (Ok (if String.eqb token "valid-token" then Some alice else None), e)
}.

#[global] Instance DidDocumentVerifier_AuthOutside : DidDocumentVerifier AuthOutside := {
  didVerifier_verify did e := (verdict e, e)
}.

#[global] Instance UsersDb_AuthOutside : UsersDb AuthOutside := {
  select_users_by_did did e :=
    if usersDown e then (Throw "Connection lost", e)
    else (Ok (map UserRoleRow.mk (rows_for did (roles e))), e)
}.

(** The same session service in front of the verifier of [Fixtures]. *)
#[global] Instance SessionService_verifier
  : SessionService (World Outside Verifier.Call Verifier.Task) := {
  validateAccessToken token v :=
    (Ok (if String.eqb token "valid-token" then Some alice else None), v)
}.

(** A world in which nothing was logged, called or left pending. *)
Definition fresh {E C T : Type} (e : E) : World E C T := mkWorld e [] [] [].

Definition bearer (token : string) : Request.t :=
  Request.mk (Some ("Bearer " ++ token)) None.

Definition admin_outside : AuthOutside :=
  mkAuthOutside false (Ok Verifier.Active) [("did:plc:abc123def456", "admin")] false.

(** A settings table of at most the one row, which can be switched
    off. *)
Record SetupOutside : Type := mkSetupOutside {
  settingsRows : list SettingsRow.t;
  settingsDown : bool;
  setupClock : Z
}.

#[global] Instance SettingsDb_SetupOutside : SettingsDb SetupOutside := {
  select_settings e :=
    if settingsDown e then (Throw "Connection lost", e) else (Ok (settingsRows e), e);
  update_settings initialized adminDid communityName updatedAt e :=
    if settingsDown e then (Throw "Connection lost", e)
    else (Ok tt, mkSetupOutside [SettingsRow.mk initialized communityName]
                   (settingsDown e) (setupClock e));
  insert_settings id initialized adminDid communityName e :=
    if settingsDown e then (Throw "Connection lost", e)
    else (Ok tt, mkSetupOutside [SettingsRow.mk initialized communityName]
                   (settingsDown e) (setupClock e))
}.

#[global] Instance Clock_SetupOutside : Verifier.Clock SetupOutside := {
  Date_now e := (setupClock e, e)
}.

(** A body is its optional [communityName]; an empty name is refused. *)
#[global] Instance InitializeBodySchema_name : InitializeBodySchema (option string) := {
  initializeBody_safeParse body :=
    match body with
    | Some name => if String.eqb name "" then None else Some body
    | None => Some None
    end
}.

Definition fresh_install : SetupOutside := mkSetupOutside [] false 1771502400000.

Definition prepared (name : string) : SetupOutside :=
  mkSetupOutside [SettingsRow.mk false name] false 1771502400000.

(** The reply of [Fixtures.event_of] is stored with the topic it
    answers. *)
Definition reply_stored : Outside :=
  mkOutside [] false 1771502400000 (Ok (Verifier.Response.mk true 200)) false
    [(uri_of "forum.atgora.topic.reply", uri_of "forum.atgora.topic.post")] [] []
    (Ok None) false.

End MoreFixtures.

(* ===================================================================== *)
(** * Properties                                                          *)
(* ===================================================================== *)

Section ClampProperties.
Import Clamp.

Lemma TimeClip_in_range t : time_value t -> TimeClip t = DateAt t.
Proof.
  unfold time_value, TimeClip, MAX_TIME_VALUE. intros H.
  destruct (Z.leb_spec (Z.abs t) 8640000000000000); [reflexivity | lia].
Qed.

Lemma TimeClip_cases t : TimeClip t = DateAt t /\ time_value t \/ TimeClip t = InvalidDate /\ ~ time_value t.
Proof.
  unfold time_value, TimeClip, MAX_TIME_VALUE.
  destruct (Z.leb_spec (Z.abs t) 8640000000000000); [left | right]; split; auto; lia.
Qed.

(** Tests of [tests/unit/firehose/clamp-timestamp.test.ts], with
    now = 2026-02-19T12:00:00.000Z = 1771502400000 ms. *)
Example clamp_test_10_min_ahead :
  clampCreatedAt (DateAt 1771503000000) (DateAt 1771502400000) = DateAt 1771502400000.
Proof. reflexivity. Qed.

Example clamp_test_2_hours_ago :
  clampCreatedAt (DateAt 1771495200000) (DateAt 1771502400000) = DateAt 1771498800000.
Proof. reflexivity. Qed.

Example clamp_test_exactly_5_min :
  clampCreatedAt (DateAt 1771502700000) (DateAt 1771502400000) = DateAt 1771502700000.
Proof. reflexivity. Qed.

(** C4. For all valid times [clientTime] and [now], the clamp returns
    [now] when [clientTime > now + 5min], returns [now - 1h] when
    [clientTime < now - 1h], and returns [clientTime] unchanged
    otherwise; the result lies in [[now - 1h, now + 5min]], and a
    [clientTime] exactly at either boundary passes through. *)
Theorem clampCreatedAt_policy (tc tn : Z) :
  time_value tc -> time_value tn ->
  let r := clampCreatedAt (DateAt tc) (DateAt tn) in
  (tc > tn + 300000 -> r = DateAt tn) /\
  (tc < tn - 3600000 -> r = DateAt (tn - 3600000)) /\
  (tn - 3600000 <= tc <= tn + 300000 -> r = DateAt tc) /\
  (exists tr, r = DateAt tr /\ tn - 3600000 <= tr <= tn + 300000) /\
  (tc = tn + 300000 -> r = DateAt tc) /\
  (tc = tn - 3600000 -> r = DateAt tc).
Proof.
  intros Hc Hn r.
  assert (Hcases :
    (tc > tn + 300000 /\ r = DateAt tn) \/
    (tc < tn - 3600000 /\ r = DateAt (tn - 3600000)) \/
    (tn - 3600000 <= tc <= tn + 300000 /\ r = DateAt tc)).
  { subst r. unfold clampCreatedAt, date_gt, date_lt, num_add, num_sub,
      MAX_FUTURE_MS, MAX_PAST_MS. cbn [getTime option_map newDate].
    change (5 * 60 * 1000) with 300000. change (60 * 60 * 1000) with 3600000.
    unfold time_value, MAX_TIME_VALUE in Hc, Hn.
    destruct (TimeClip_cases (tn + 300000)) as [[-> Hf] | [-> Hf]];
    destruct (TimeClip_cases (tn - 3600000)) as [[-> Hp] | [-> Hp]];
    unfold time_value, MAX_TIME_VALUE in Hf, Hp; cbn [getTime].
    - destruct (Z.ltb_spec (tn + 300000) tc); [left; split; [lia | reflexivity] |].
      destruct (Z.ltb_spec tc (tn - 3600000)); [right; left | right; right];
        (split; [lia | reflexivity]).
    - destruct (Z.ltb_spec (tn + 300000) tc); [left; split; [lia | reflexivity] |].
      right; right. split; [lia | reflexivity].
    - destruct (Z.ltb_spec tc (tn - 3600000)); [right; left | right; right];
        (split; [lia | reflexivity]).
    - right; right. split; [lia | reflexivity]. }
  repeat split.
  - intros H. destruct Hcases as [[_ E] | [[? _] | [? _]]]; [exact E | lia | lia].
  - intros H. destruct Hcases as [[? _] | [[_ E] | [? _]]]; [lia | exact E | lia].
  - intros H. destruct Hcases as [[? _] | [[? _] | [_ E]]]; [lia | lia | exact E].
  - destruct Hcases as [[? E] | [[? E] | [? E]]]; rewrite E;
      eexists; (split; [reflexivity | lia]).
  - intros H. destruct Hcases as [[? _] | [[? _] | [_ E]]]; [lia | lia | exact E].
  - intros H. destruct Hcases as [[? _] | [[? _] | [_ E]]]; [lia | lia | exact E].
Qed.

(** An Invalid Date is no time; every comparison with it is false and
    the clamp hands it back. *)
Lemma clampCreatedAt_invalid_client now :
  clampCreatedAt InvalidDate now = InvalidDate.
Proof. reflexivity. Qed.

Lemma clampCreatedAt_policy_witness :
  clampCreatedAt (DateAt 1771503000000) (DateAt 1771502400000) = DateAt 1771502400000.
Proof.
  destruct (clampCreatedAt_policy 1771503000000 1771502400000) as [Hfuture _].
  - unfold time_value, MAX_TIME_VALUE. lia.
  - unfold time_value, MAX_TIME_VALUE. lia.
  - apply Hfuture. lia.
Defined.

End ClampProperties.

(* --------------------------------------------------------------------- *)
(** ** Stepping through computations                                     *)
(* --------------------------------------------------------------------- *)

Section EffLemmas.
Import Eff.
Context {E C T : Type}.
Notation M := (M E C T).

Lemma bind_Ok {A B} (m : M A) (k : A -> M B) w a w1 :
  m w = (Ok a, w1) -> bind m k w = k a w1.
Proof. unfold bind. intros ->. reflexivity. Qed.

Lemma bind_Throw {A B} (m : M A) (k : A -> M B) w err w1 :
  m w = (Throw err, w1) -> bind m k w = (Throw err, w1).
Proof. unfold bind. intros ->. reflexivity. Qed.

Lemma try_catch_Ok {A} (m : M A) (h : Err -> M A) w a w1 :
  m w = (Ok a, w1) -> try_catch m h w = (Ok a, w1).
Proof. unfold try_catch. intros ->. reflexivity. Qed.

Lemma try_catch_Throw {A} (m : M A) (h : Err -> M A) w err w1 :
  m w = (Throw err, w1) -> try_catch m h w = h err w1.
Proof. unfold try_catch. intros ->. reflexivity. Qed.

Lemma call_Ok {A} (c : C) (f : E -> Result A * E) (w : World E C T) a e1 :
  f (ext w) = (Ok a, e1) -> call c f w = (Ok a, set_ext e1 (add_call c w)).
Proof. unfold call, bind, issue, await. cbn. intros ->. reflexivity. Qed.

Lemma call_Throw {A} (c : C) (f : E -> Result A * E) (w : World E C T) err e1 :
  f (ext w) = (Throw err, e1) -> call c f w = (Throw err, set_ext e1 (add_call c w)).
Proof. unfold call, bind, issue, await. cbn. intros ->. reflexivity. Qed.

(** A handler that cannot throw makes the whole [try] total. *)
Lemma try_catch_total {A} (m : M A) (h : Err -> M A) :
  (forall err w, exists a w1, h err w = (Ok a, w1)) ->
  forall w, exists a w1, try_catch m h w = (Ok a, w1).
Proof.
  intros Hh w. unfold try_catch.
  destruct (m w) as [[a | err] w1]; [eauto | apply Hh].
Qed.

End EffLemmas.

(* --------------------------------------------------------------------- *)
(** ** Record validator                                                  *)
(* --------------------------------------------------------------------- *)

Section ValidationProperties.
Import Eff Types Validation.
Context {E T Doc : Type} {serializer : Serializable Doc} {lexicons : Lexicons Doc}.
Notation World := (World E (Call Doc) T).

Lemma supported_schemaMap collection :
  isSupportedCollection collection = true ->
  exists schema, schemaMap collection = Some schema.
Proof.
  unfold isSupportedCollection, schemaMap, SUPPORTED_COLLECTIONS. cbn [existsb].
  destruct (String.eqb collection "forum.atgora.topic.post"); [eauto |].
  destruct (String.eqb collection "forum.atgora.topic.reply"); [eauto |].
  destruct (String.eqb collection "forum.atgora.interaction.reaction"); [eauto |].
  discriminate.
Qed.

(** What [validateRecord] does to the world: nothing, or one schema
    check on the record. *)
Lemma validateRecord_world collection (record : Doc) (w : World) :
  let w1 := snd (validateRecord collection record w) in
  w1 = w \/ exists schema, w1 = add_call (SafeParse schema record) w.
Proof.
  cbv [validateRecord].
  destruct (isSupportedCollection collection); cbv [negb]; [| left; reflexivity].
  cbv [bind lift].
  destruct (JSON_stringify record) as [[s |] | err];
    cbv [serialized_length ret throw snd]; try (left; reflexivity).
  destruct (Z.of_nat (List.length s) >? MAX_RECORD_SIZE); [left; reflexivity |].
  destruct (schemaMap collection) as [schema |]; [| left; reflexivity].
  right. exists schema. cbv [issue].
  destruct (safeParse schema record) as [[|] | err]; reflexivity.
Qed.

(** C7 (as amended). The three checks of [validateRecord] run in the
    order membership, size, schema, and the first failure returns.  The
    size that is checked is the length of the JSON serialization in
    UTF-16 code units: a record whose serialization is longer than
    65536 units fails with the size error whatever the schema would
    say, and the schema is not run. *)
Theorem validateRecord_checks_in_order collection (record : Doc) (w : World) :
  (isSupportedCollection collection = false ->
     validateRecord collection record w
     = (Ok (Failure ("Unsupported collection: " ++ collection)), w)) /\
  (isSupportedCollection collection = true ->
   forall s, JSON_stringify record = Ok (Some s) ->
     (Z.of_nat (List.length s) > 65536 ->
        validateRecord collection record w
        = (Ok (Failure "Record exceeds maximum size of 65536 bytes"), w)) /\
     (Z.of_nat (List.length s) <= 65536 ->
        exists schema,
          schemaMap collection = Some schema /\
          validateRecord collection record w
          = (match safeParse schema record with
             | Ok true => Ok (Success record)
             | Ok false => Ok (Failure ("Validation failed for " ++ collection))
             | Throw err => Throw err
             end,
             add_call (SafeParse schema record) w))).
Proof.
  split.
  - intros Hc. unfold validateRecord. rewrite Hc. reflexivity.
  - intros Hc s Hs. unfold validateRecord. rewrite Hc. cbn [negb].
    unfold bind, lift, serialized_length, ret. rewrite Hs.
    change MAX_RECORD_SIZE with 65536. split; intros Hlen.
    + destruct (Z.gtb_spec (Z.of_nat (List.length s)) 65536); [reflexivity | lia].
    + destruct (Z.gtb_spec (Z.of_nat (List.length s)) 65536); [lia |].
      destruct (supported_schemaMap collection Hc) as [schema Hschema].
      exists schema. split; [exact Hschema |]. rewrite Hschema.
      unfold issue. destruct (safeParse schema record) as [[|] | err]; reflexivity.
Qed.

End ValidationProperties.

Section SerializationSize.
Import Validation.

(** The code-unit count never exceeds the UTF-8 byte count, so every
    record the size check rejects is also larger than 64 KiB in bytes. *)
Lemma length_le_utf8_length (s : JSString) :
  Z.of_nat (List.length s) <= utf8_length s.
Proof.
  assert (Hn : forall n (s : JSString), (List.length s <= n)%nat ->
                 Z.of_nat (List.length s) <= utf8_length s).
  { induction n as [| n IH]; intros [| c rest] Hlen; cbn [List.length] in *;
      try (cbn; lia); try lia.
    assert (Hrest := IH rest ltac:(lia)).
    cbn [utf8_length].
    destruct (c <? 128); [lia |].
    destruct (c <? 2048); [lia |].
    destruct (is_high_surrogate c); [| lia].
    destruct rest as [| d rest']; [cbn; lia |].
    destruct (is_low_surrogate d); [| lia].
    cbn [List.length] in *.
    assert (Hrest' := IH rest' ltac:(lia)). lia. }
  apply (Hn (List.length s)). lia.
Qed.

End SerializationSize.

Section ValidationExamples.
Import Eff Types Validation Fixtures.

(** C7 does not hold of the byte length: the serialization of
    [euro_record] has 30011 code units and 90011 bytes, more than
    64 KiB, yet the size check lets it through, the schema is run, and
    the record is accepted. *)
Lemma validateRecord_byte_length_counterexample :
  isSupportedCollection "forum.atgora.topic.post" = true /\
  JSON_stringify euro_record = Ok (Some (Json.stringify euro_record)) /\
  utf8_length (Json.stringify euro_record) = 90011 /\
  90011 > 64 * 1024 /\
  validateRecord (E := Outside) (T := Empty_set)
    "forum.atgora.topic.post" euro_record (start quiet)
  = (Ok (Success euro_record),
     add_call (SafeParse topicPostSchema euro_record) (start quiet)).
Proof.
  split; [reflexivity |]. split; [reflexivity |].
  split; [vm_compute; reflexivity |]. split; [reflexivity |].
  assert (Hlen : (Z.of_nat (List.length (Json.stringify euro_record)) >? MAX_RECORD_SIZE)
                 = false) by (vm_compute; reflexivity).
  cbv [validateRecord bind lift ret issue serialized_length JSON_stringify
       Json.Serializable_Json].
  change (isSupportedCollection "forum.atgora.topic.post") with true.
  cbv [negb]. rewrite Hlen.
  change (schemaMap "forum.atgora.topic.post") with (Some topicPostSchema).
  reflexivity.
Qed.

Lemma validateRecord_checks_in_order_witness :
  validateRecord (E := Outside) (T := Empty_set)
    "forum.atgora.topic.post" long_ascii_record (start quiet)
  = (Ok (Failure "Record exceeds maximum size of 65536 bytes"), start quiet).
Proof.
  destruct (validateRecord_checks_in_order (E := Outside) (T := Empty_set)
              "forum.atgora.topic.post" long_ascii_record (start quiet)) as [_ Hsup].
  destruct (Hsup eq_refl (Json.stringify long_ascii_record) eq_refl) as [Hbig _].
  apply Hbig. vm_compute. reflexivity.
Defined.

End ValidationExamples.

(* --------------------------------------------------------------------- *)
(** ** DID document verifier                                             *)
(* --------------------------------------------------------------------- *)

Section VerifierProperties.
Import Eff Verifier.
Context {E : Type} {cache : Cache E} {clock : Clock E} {json : EntryJson}.
Notation World := (World E Call Task).

Ltac step_world w := destruct w as [?e ?l ?c ?p]; cbn [ext log calls pending] in *.

Ltac eff_unfold :=
  cbv [verify tryCache resolveAndCache resolveFromPlc resolveFromPlc_request
       resolveFromPlc_response cacheResult cacheResult_request cacheResult_response
       backgroundRefresh run_task
       try_catch bind call issue await ask lift ret throw logAt detach
       add_call add_log add_pending set_ext ext log calls pending fst snd negb].

Lemma run_task_total (network : Network E) (t : Task) (w : World) :
  exists w1, run_task t w = (Ok tt, w1).
Proof.
  destruct t as [did url | did key value]; cbn [run_task].
  - destruct (try_catch_total
      (result <- resolveFromPlc_response did url ;;
       cacheResult did result ;;
       logAt debug [("did", LStr did)] "Background DID document refresh completed")%eff
      (fun err => logAt warn [("err", LErr err); ("did", LStr did)]
                    "Background DID document refresh failed")) with (w := w)
      as [[] [w1 Hw1]]; [intros; cbv [logAt]; eauto | eauto].
  - destruct (try_catch_total
      (cacheResult_response key value)
      (fun err => logAt warn [("err", LErr err); ("did", LStr did)]
                    "Failed to cache DID verification result")) with (w := w)
      as [[] [w1 Hw1]]; [intros; cbv [logAt]; eauto | eauto].
Qed.

Lemma run_tasks_total (network : Network E) (ts : list Task) :
  forall w : World, exists w1, run_tasks ts w = (Ok tt, w1).
Proof.
  induction ts as [| t ts IH]; intros w; cbn [run_tasks].
  - cbv [ret]. eauto.
  - destruct (run_task_total network t w) as [w1 Hw1].
    rewrite (bind_Ok _ _ _ _ _ Hw1). apply IH.
Qed.

Lemma drain_total (network : Network E) (w : World) :
  exists w1, drain w = (Ok tt, w1).
Proof. unfold drain. apply run_tasks_total. Qed.

Lemma tryCache_total (network : Network E) did (w : World) :
  exists r w1, tryCache did w = (Ok r, w1).
Proof.
  unfold tryCache. apply try_catch_total.
  intros err w0. cbv [bind logAt ret]. eauto.
Qed.

Lemma resolveAndCache_total (network : Network E) did (w : World) :
  exists v w1, resolveAndCache did w = (Ok v, w1).
Proof.
  unfold resolveAndCache. apply try_catch_total.
  intros err w0. cbv [bind logAt ret]. eauto.
Qed.

(** C2. [verify] never throws: for every identity, every cache and
    every directory it resolves to [{active: true}] or to
    [{active: false, reason}]; settling the promise chains it left
    behind raises nothing either. *)
Theorem verify_never_throws (network : Network E) (did : string) (w : World) :
  exists v w1,
    verify did w = (Ok v, w1) /\
    (v = Active \/ exists reason, v = Inactive reason) /\
    exists w2, drain w1 = (Ok tt, w2).
Proof.
  assert (Hshape : forall v, v = Active \/ exists reason, v = Inactive reason).
  { intros [| reason]; [left; reflexivity | right; eauto]. }
  assert (Hrun : exists v w1, verify did w = (Ok v, w1)).
  { unfold verify. destruct (negb (String.prefix "did:plc:" did)).
    - cbv [ret]. eauto.
    - destruct (tryCache_total network did w) as [r [w1 Hw1]].
      rewrite (bind_Ok _ _ _ _ _ Hw1). destruct r as [v |].
      + cbv [ret]. eauto.
      + apply resolveAndCache_total. }
  destruct Hrun as [v [w1 Hv]]. exists v, w1.
  split; [exact Hv |]. split; [apply Hshape | apply drain_total].
Qed.

(** C6. A cache entry no older than the soft TTL (one hour, the
    boundary included) is returned as it is: active, or inactive with
    the cached reason.  The only call issued is the cache read; no
    request goes to the directory and no refresh is left behind. *)
Theorem verify_fresh_cache_hit (network : Network E) (did raw : string)
    (entry : CachedDidEntry.t) (now : Z) (e1 e2 : E) (w : World) :
  String.prefix "did:plc:" did = true ->
  cache_get (DID_DOC_CACHE_PREFIX ++ did) (ext w) = (Ok (Some raw), e1) ->
  JSON_parse_entry raw = Ok entry ->
  Date_now e1 = (now, e2) ->
  now - CachedDidEntry.resolvedAt entry <= DID_DOC_SOFT_TTL * 1000 ->
  exists v,
    verify did w
    = (Ok v, mkWorld e2 (log w) (calls w ++ [CacheGet (DID_DOC_CACHE_PREFIX ++ did)])
               (pending w)) /\
    (CachedDidEntry.active entry = true -> v = Active) /\
    (CachedDidEntry.active entry = false ->
       forall reason, CachedDidEntry.reason entry = Some reason -> v = Inactive reason).
Proof.
  intros Hplc Hget Hparse Hnow Hage.
  exists (cachedVerdict entry). split; [| split].
  - step_world w. eff_unfold. rewrite Hplc, Hget, Hparse, Hnow.
    destruct (Z.gtb_spec (now - CachedDidEntry.resolvedAt entry) (DID_DOC_SOFT_TTL * 1000));
      [lia | reflexivity].
  - intros Hactive. unfold cachedVerdict. rewrite Hactive. reflexivity.
  - intros Hactive reason Hreason. unfold cachedVerdict.
    rewrite Hactive, Hreason. reflexivity.
Qed.

(** C5. A cache entry older than the soft TTL is still returned as it
    is, at once, and a refresh is left behind.  The verdict and the
    world at return are the same for every directory, and the refresh,
    whether it succeeds or fails, settles without raising. *)
Theorem verify_stale_cache_hit (did raw : string)
    (entry : CachedDidEntry.t) (now : Z) (e1 e2 : E) (w : World) :
  String.prefix "did:plc:" did = true ->
  cache_get (DID_DOC_CACHE_PREFIX ++ did) (ext w) = (Ok (Some raw), e1) ->
  JSON_parse_entry raw = Ok entry ->
  Date_now e1 = (now, e2) ->
  DID_DOC_SOFT_TTL * 1000 < now - CachedDidEntry.resolvedAt entry <= DID_DOC_HARD_TTL * 1000 ->
  let url := PLC_DIRECTORY_URL ++ "/" ++ did in
  exists v,
    (forall network : Network E,
       verify did w
       = (Ok v, mkWorld e2 (log w)
                  ((calls w ++ [CacheGet (DID_DOC_CACHE_PREFIX ++ did)])
                     ++ [Fetch url PLC_FETCH_TIMEOUT])
                  (pending w ++ [BackgroundRefresh did url]))) /\
    (CachedDidEntry.active entry = true -> v = Active) /\
    (CachedDidEntry.active entry = false ->
       forall reason, CachedDidEntry.reason entry = Some reason -> v = Inactive reason) /\
    (forall (network : Network E) (w2 : World),
       exists w3, run_task (BackgroundRefresh did url) w2 = (Ok tt, w3)).
Proof.
  intros Hplc Hget Hparse Hnow Hage url.
  exists (cachedVerdict entry). split; [| split; [| split]].
  - intros network. step_world w. eff_unfold. rewrite Hplc, Hget, Hparse, Hnow.
    destruct (Z.gtb_spec (now - CachedDidEntry.resolvedAt entry) (DID_DOC_SOFT_TTL * 1000));
      [reflexivity | lia].
  - intros Hactive. unfold cachedVerdict. rewrite Hactive. reflexivity.
  - intros Hactive reason Hreason. unfold cachedVerdict.
    rewrite Hactive, Hreason. reflexivity.
  - intros network w2. apply run_task_total.
Qed.

Ltac answer_cases :=
  intros;
  repeat match goal with
         | H : Ok _ = Ok _ |- _ => injection H as <-
         | H : Throw _ = Ok _ |- _ => discriminate H
         | H : Ok _ = Throw _ |- _ => discriminate H
         end;
  cbn [Response.ok Response.status] in *;
  first [reflexivity | congruence | lia].

Lemma tryCache_no_entry (network : Network E) (did : string) (e1 : E) (w : World) :
  no_usable_cache_entry did (ext w) e1 ->
  exists l1,
    tryCache did w
    = (Ok None, mkWorld e1 l1 (calls w ++ [CacheGet (DID_DOC_CACHE_PREFIX ++ did)])
                  (pending w)).
Proof.
  intros Hno. step_world w.
  destruct Hno as [Hget | [[err Hget] | [raw [err [Hget Hparse]]]]];
    eff_unfold; rewrite Hget; try rewrite Hparse; eauto.
Qed.

(** C3 (as amended). With no usable cache entry, [verify] asks the
    directory and maps its answer: a success response gives active; 410
    gives inactive, "DID has been tombstoned"; 404 gives inactive, "DID
    not found in PLC directory"; any other status, a network failure or
    a timeout gives inactive, "DID document resolution failed".  In the
    410 case the verdict is written to the cache under the identity's
    key with the hard TTL. *)
Theorem verify_cold_cache_resolution (network : Network E) (did : string)
    (e1 e2 : E) (answer : Result Response.t) (w : World) :
  String.prefix "did:plc:" did = true ->
  no_usable_cache_entry did (ext w) e1 ->
  fetch (PLC_DIRECTORY_URL ++ "/" ++ did) PLC_FETCH_TIMEOUT e1 = (answer, e2) ->
  let url := PLC_DIRECTORY_URL ++ "/" ++ did in
  let key := DID_DOC_CACHE_PREFIX ++ did in
  exists v w1,
    verify did w = (Ok v, w1) /\
    (forall response, answer = Ok response -> Response.ok response = true ->
       v = Active) /\
    (forall response, answer = Ok response -> Response.ok response = false ->
       Response.status response = 410 ->
       v = Inactive "DID has been tombstoned" /\
       let value :=
         JSON_stringify_entry
           (CachedDidEntry.mk false (Some "DID has been tombstoned") (fst (Date_now e2))) in
       calls w1 = (calls w ++ [CacheGet key; Fetch url PLC_FETCH_TIMEOUT;
                               CacheSet key value "EX" DID_DOC_HARD_TTL])%list /\
       pending w1 = (pending w ++ [CacheWrite did key value])%list /\
       forall w2 : World,
         ext (snd (run_task (CacheWrite did key value) w2))
         = snd (cache_set key value "EX" DID_DOC_HARD_TTL (ext w2))) /\
    (forall response, answer = Ok response -> Response.ok response = false ->
       Response.status response = 404 ->
       v = Inactive "DID not found in PLC directory") /\
    (forall response, answer = Ok response -> Response.ok response = false ->
       Response.status response <> 410 -> Response.status response <> 404 ->
       v = Inactive "DID document resolution failed") /\
    (forall err, answer = Throw err ->
       v = Inactive "DID document resolution failed").
Proof.
  intros Hplc Hno Hfetch url key.
  destruct (tryCache_no_entry network did e1 w Hno) as [l1 Htry].
  unfold verify. rewrite Hplc. cbn [negb]. rewrite (bind_Ok _ _ _ _ _ Htry).
  step_world w. subst url key.
  destruct answer as [[ok status] | err].
  - destruct ok.
    + eff_unfold. rewrite Hfetch. cbv [Response.ok]. destruct (Date_now e2) as [now e3].
      do 2 eexists. split; [reflexivity |].
      repeat split; answer_cases.
    + destruct (Z.eqb_spec status 410) as [-> | H410].
      * eff_unfold. rewrite Hfetch. cbv [Response.ok Response.status Z.eqb Pos.eqb].
        destruct (Date_now e2) as [now e3] eqn:Hnow.
        do 2 eexists. split; [reflexivity |].
        split; [answer_cases |].
        split; [| repeat split; answer_cases].
        intros response _ _ _. split; [reflexivity |].
        cbn [fst]. split; [rewrite <- !app_assoc; reflexivity |].
        split; [reflexivity |].
        intros [e' l' c' p'].
        destruct (cache_set (DID_DOC_CACHE_PREFIX ++ did)
                    (JSON_stringify_entry
                       (CachedDidEntry.mk false (Some "DID has been tombstoned") now))
                    "EX" DID_DOC_HARD_TTL e') as [[[] | err] e''] eqn:Hset;
          reflexivity.
      * destruct (Z.eqb_spec status 404) as [-> | H404].
        -- eff_unfold. rewrite Hfetch. cbv [Response.ok Response.status Z.eqb Pos.eqb].
           destruct (Date_now e2) as [now e3].
           do 2 eexists. split; [reflexivity |].
           repeat split; answer_cases.
        -- eff_unfold. rewrite Hfetch. cbv [Response.ok Response.status].
           destruct (Z.eqb_spec status 410); [contradiction |].
           destruct (Z.eqb_spec status 404); [contradiction |].
           do 2 eexists. split; [reflexivity |].
           repeat split; answer_cases.
  - eff_unfold. rewrite Hfetch.
    do 2 eexists. split; [reflexivity |].
    repeat split; answer_cases.
Qed.

End VerifierProperties.

Section VerifierExamples.
Import Eff Verifier Fixtures.

(** C3 does not hold of the reason strings: on a cold cache the
    reasons [verify] returns for 410, for 404 and for an unreachable
    directory are not "tombstoned", "not found" and "resolution
    failed". *)
Lemma verify_reason_strings_counterexample :
  (cache_get (DID_DOC_CACHE_PREFIX ++ TEST_DID) (answering false 410)
   = (Ok None, answering false 410) /\
   fst (verify TEST_DID (start (answering false 410)))
   = Ok (Inactive "DID has been tombstoned") /\
   fst (verify TEST_DID (start (answering false 410))) <> Ok (Inactive "tombstoned")) /\
  (fst (verify TEST_DID (start (answering false 404)))
   = Ok (Inactive "DID not found in PLC directory") /\
   fst (verify TEST_DID (start (answering false 404))) <> Ok (Inactive "not found")) /\
  (fst (verify TEST_DID (start unreachable))
   = Ok (Inactive "DID document resolution failed") /\
   fst (verify TEST_DID (start unreachable)) <> Ok (Inactive "resolution failed")).
Proof.
  repeat split; try reflexivity; vm_compute; discriminate.
Qed.

Lemma verify_cold_cache_resolution_witness :
  exists v w1,
    verify TEST_DID (start (answering false 410)) = (Ok v, w1) /\
    v = Inactive "DID has been tombstoned" /\
    calls w1
    = [CacheGet "barazo:did-doc:did:plc:abc123def456";
       Fetch "https://plc.directory/did:plc:abc123def456" 5000;
       CacheSet "barazo:did-doc:did:plc:abc123def456"
         (JSON_stringify_entry
            (CachedDidEntry.mk false (Some "DID has been tombstoned") 1771502400000))
         "EX" 7200].
Proof.
  destruct (verify_cold_cache_resolution Network_Outside TEST_DID
              (answering false 410) (answering false 410)
              (Ok (Response.mk false 410)) (start (answering false 410)))
    as [v [w1 [Hv [_ [Hgone _]]]]].
  - reflexivity.
  - left. reflexivity.
  - reflexivity.
  - destruct (Hgone (Response.mk false 410) eq_refl eq_refl eq_refl)
      as [Hreason [Hcalls _]].
    exists v, w1. split; [exact Hv |]. split; [exact Hreason | exact Hcalls].
Defined.

(** The cache entry is 30 minutes old. *)
Lemma verify_fresh_cache_hit_witness :
  exists v,
    verify TEST_DID (start (cached 30 unreachable.(plcAnswer)))
    = (Ok v, mkWorld (cached 30 unreachable.(plcAnswer)) []
               [CacheGet "barazo:did-doc:did:plc:abc123def456"] []) /\
    v = Active.
Proof.
  destruct (verify_fresh_cache_hit Network_Outside TEST_DID
              (JSON_stringify_entry (CachedDidEntry.mk true None 1771500600000))
              (CachedDidEntry.mk true None 1771500600000) 1771502400000
              (cached 30 unreachable.(plcAnswer)) (cached 30 unreachable.(plcAnswer))
              (start (cached 30 unreachable.(plcAnswer))))
    as [v [Hv [Hactive _]]].
  - reflexivity.
  - reflexivity.
  - reflexivity.
  - reflexivity.
  - vm_compute. discriminate.
  - exists v. split; [exact Hv | apply Hactive; reflexivity].
Defined.

(** The cache entry is 70 minutes old and the directory cannot be
    reached. *)
Lemma verify_stale_cache_hit_witness :
  exists v,
    verify TEST_DID (start (cached 70 unreachable.(plcAnswer)))
    = (Ok v, mkWorld (cached 70 unreachable.(plcAnswer)) []
               [CacheGet "barazo:did-doc:did:plc:abc123def456";
                Fetch "https://plc.directory/did:plc:abc123def456" 5000]
               [BackgroundRefresh TEST_DID "https://plc.directory/did:plc:abc123def456"]) /\
    v = Active.
Proof.
  destruct (verify_stale_cache_hit TEST_DID
              (JSON_stringify_entry (CachedDidEntry.mk true None 1771498200000))
              (CachedDidEntry.mk true None 1771498200000) 1771502400000
              (cached 70 unreachable.(plcAnswer)) (cached 70 unreachable.(plcAnswer))
              (start (cached 70 unreachable.(plcAnswer))))
    as [v [Hv [Hactive _]]].
  - reflexivity.
  - reflexivity.
  - reflexivity.
  - reflexivity.
  - vm_compute. split; [reflexivity | discriminate].
  - exists v. split; [exact (Hv Network_Outside) | apply Hactive; reflexivity].
Defined.

(** The tests of [tests/unit/lib/did-document-verifier.test.ts]. *)
Example verify_test_did_web :
  verify "did:web:example.com" (start unreachable) = (Ok Active, start unreachable).
Proof. reflexivity. Qed.

Example verify_test_stale_then_refresh_fails :
  fst (bind (verify TEST_DID) (fun v => bind drain (fun _ => ret v))
         (start (cached 70 unreachable.(plcAnswer))))
  = Ok Active.
Proof. vm_compute. reflexivity. Qed.

Example verify_test_cache_down_directory_up :
  fst (verify TEST_DID
         (start (mkOutside [] true 1771502400000 (Ok (Response.mk true 200))
                   false [] [] [] (Ok None) false)))
  = Ok Active.
Proof. vm_compute. reflexivity. Qed.

End VerifierExamples.

(* --------------------------------------------------------------------- *)
(** ** Record event handler                                              *)
(* --------------------------------------------------------------------- *)

Section HandlerProperties.
Import Eff Types Validation Handler.
Context {E Doc : Type}.
Context {serializer : Serializable Doc} {lexicons : Lexicons Doc}.
Context {db : Database E} {accountAgeService : AccountAgeService E}
  {indexers : Indexers E Doc}.
Notation World := (World E (Call Doc) Empty_set).
Notation M := (M E (Call Doc) Empty_set).

Lemma supported_cases collection :
  isSupportedCollection collection = true ->
  collection = "forum.atgora.topic.post"
  \/ collection = "forum.atgora.topic.reply"
  \/ collection = "forum.atgora.interaction.reaction".
Proof.
  unfold isSupportedCollection, SUPPORTED_COLLECTIONS. cbn [existsb].
  destruct (String.eqb_spec collection "forum.atgora.topic.post"); [auto |].
  destruct (String.eqb_spec collection "forum.atgora.topic.reply"); [auto |].
  destruct (String.eqb_spec collection "forum.atgora.interaction.reaction"); [auto |].
  discriminate.
Qed.

Lemma validateRecord_Success_supported collection (record data : Doc) (w w1 : World) :
  validateRecord collection record w = (Ok (Success data), w1) ->
  isSupportedCollection collection = true.
Proof.
  unfold validateRecord.
  destruct (isSupportedCollection collection); [reflexivity |].
  cbv [negb ret]. discriminate.
Qed.

(** C1. [handle] never throws.  Whatever is thrown while one event is
    handled (by the validator, the trust check, the look-up before a
    delete or an indexer) is caught by the one outer [catch], which logs
    it with the event's id and collection and does nothing else. *)
Theorem handle_never_throws (event : RecordEvent.t Doc) (w : World) :
  exists w1,
    handle event w = (Ok tt, w1) /\
    (forall w0, handle_try event w = (Ok tt, w0) -> w1 = w0) /\
    (forall err w0, handle_try event w = (Throw err, w0) ->
       w1 = add_log
              (mkLogEntry error
                 [("err", LErr err); ("eventId", LNum (RecordEvent.id event));
                  ("collection", LStr (RecordEvent.collection event))]
                 "Error handling record event") w0).
Proof.
  unfold handle, try_catch.
  destruct (handle_try event w) as [[[] | err] w0].
  - exists w0. split; [reflexivity |]. split; intros; congruence.
  - eexists. split; [reflexivity |]. split; intros ? ?; [discriminate |].
    intros Heq. injection Heq as <- <-. reflexivity.
Qed.

Ltac handler_unfold :=
  cbv [handle handle_try dispatchDelete dispatchCreate dispatchUpdate
       upsertUserWithTrustCheck first_rootUri first_subjectUri
       try_catch bind call issue await lift ret throw logAt
       add_call add_log add_pending set_ext ext log calls pending
       RecordEvent.id RecordEvent.collection RecordEvent.action RecordEvent.did
       RecordEvent.rkey RecordEvent.record RecordEvent.cid RecordEvent.live
       isSupportedCollection SUPPORTED_COLLECTIONS COLLECTION_MAP existsb
       String.eqb Ascii.eqb Bool.eqb orb negb fst snd].

(** C8. A delete event of a reply or a reaction whose row is not in the
    database still reaches the indexer's [handleDelete], with the empty
    string as [rootUri] or [subjectUri]; the missing row raises nothing:
    [dispatchDelete] ends the way the indexer's call ends, and [handle]
    returns. *)
Theorem handle_delete_missing_row (event : RecordEvent.t Doc) (e1 : E) (w : World) :
  RecordEvent.action event = delete ->
  let did := RecordEvent.did event in
  let rkey := RecordEvent.rkey event in
  let collection := RecordEvent.collection event in
  let uri := "at://" ++ did ++ "/" ++ collection ++ "/" ++ rkey in
  (collection = "forum.atgora.topic.reply" ->
   select_reply_rootUri uri (ext w) = (Ok [], e1) ->
   (exists w1,
      handle event w = (Ok tt, w1) /\
      calls w1 = (calls w ++ [DbSelectReplyRootUri uri;
                              ReplyHandleDelete uri rkey did ""])%list) /\
   fst (dispatchDelete (COLLECTION_MAP collection) uri rkey did w)
   = fst (reply_handleDelete uri rkey did "" e1)) /\
  (collection = "forum.atgora.interaction.reaction" ->
   select_reaction_subjectUri uri (ext w) = (Ok [], e1) ->
   (exists w1,
      handle event w = (Ok tt, w1) /\
      calls w1 = (calls w ++ [DbSelectReactionSubjectUri uri;
                              ReactionHandleDelete uri rkey did ""])%list) /\
   fst (dispatchDelete (COLLECTION_MAP collection) uri rkey did w)
   = fst (reaction_handleDelete uri rkey did "" e1)).
Proof.
  destruct event as [id collection action did rkey record cid live].
  destruct w as [e l c p].
  cbn [RecordEvent.action RecordEvent.did RecordEvent.rkey RecordEvent.collection ext calls].
  intros -> . split; intros -> Hselect.
  - split.
    + handler_unfold. rewrite Hselect.
      destruct (reply_handleDelete
                  ("at://" ++ did ++ "/" ++ "forum.atgora.topic.reply" ++ "/" ++ rkey)
                  rkey did "" e1) as [[[] | err] e2];
        eexists; (split; [reflexivity | cbv [calls]; rewrite <- app_assoc; reflexivity]).
    + handler_unfold. rewrite Hselect.
      destruct (reply_handleDelete
                  ("at://" ++ did ++ "/" ++ "forum.atgora.topic.reply" ++ "/" ++ rkey)
                  rkey did "" e1) as [[[] | err] e2]; reflexivity.
  - split.
    + handler_unfold. rewrite Hselect.
      destruct (reaction_handleDelete
                  ("at://" ++ did ++ "/" ++ "forum.atgora.interaction.reaction" ++ "/" ++ rkey)
                  rkey did "" e1) as [[[] | err] e2];
        eexists; (split; [reflexivity | cbv [calls]; rewrite <- app_assoc; reflexivity]).
    + handler_unfold. rewrite Hselect.
      destruct (reaction_handleDelete
                  ("at://" ++ did ++ "/" ++ "forum.atgora.interaction.reaction" ++ "/" ++ rkey)
                  rkey did "" e1) as [[[] | err] e2]; reflexivity.
Qed.

(** C9. Trust resolution fails open.  For a create event whose record
    passed validation, an error thrown anywhere in the [try] of
    [upsertUserWithTrustCheck] (a database failure, a failure of the
    account age service) makes the trust status "trusted", and the
    event still enters the create entry point of its indexer with that
    status. *)
Theorem handle_create_trust_fails_open (event : RecordEvent.t Doc) (record : Doc)
    (err : Err) (w w1 w2 : World) :
  RecordEvent.action event = create ->
  RecordEvent.record event = Some record ->
  validateRecord (RecordEvent.collection event) record w = (Ok (Success record), w1) ->
  upsertUserWithTrustCheck_try (RecordEvent.did event) w1 = (Throw err, w2) ->
  let did := RecordEvent.did event in
  let rkey := RecordEvent.rkey event in
  let collection := RecordEvent.collection event in
  let uri := "at://" ++ did ++ "/" ++ collection ++ "/" ++ rkey in
  let params :=
    Params.mk uri rkey did
      (match RecordEvent.cid event with Some c => c | None => "" end)
      record (RecordEvent.live event) trusted in
  upsertUserWithTrustCheck did w1
  = (Ok trusted,
     add_log (mkLogEntry error [("err", LErr err); ("did", LStr did)]
                "Failed to upsert user with trust check") w2) /\
  exists w3,
    handle event w = (Ok tt, w3) /\
    (collection = "forum.atgora.topic.post"
       /\ calls w3 = (calls w2 ++ [TopicHandleCreate params])%list
     \/ collection = "forum.atgora.topic.reply"
       /\ calls w3 = (calls w2 ++ [ReplyHandleCreate params])%list
     \/ collection = "forum.atgora.interaction.reaction"
       /\ calls w3 = (calls w2 ++ [ReactionHandleCreate params])%list).
Proof.
  destruct event as [id collection action did rkey orecord cid live].
  cbn [RecordEvent.action RecordEvent.did RecordEvent.rkey RecordEvent.collection
       RecordEvent.record RecordEvent.cid RecordEvent.live].
  intros -> -> Hval Hups. split.
  - cbv [upsertUserWithTrustCheck try_catch]. rewrite Hups. reflexivity.
  - destruct w2 as [e2 l2 c2 p2].
    destruct (supported_cases collection
                (validateRecord_Success_supported _ _ _ _ _ Hval))
      as [Hc | [Hc | Hc]]; rewrite Hc in Hval |- *.
    + handler_unfold. rewrite Hval, Hups.
      match goal with |- context [topic_handleCreate ?p ?e] =>
        destruct (topic_handleCreate p e) as [[[] | err'] e3] end;
        eexists; (split; [reflexivity | left; split; reflexivity]).
    + handler_unfold. rewrite Hval, Hups.
      match goal with |- context [reply_handleCreate ?p ?e] =>
        destruct (reply_handleCreate p e) as [[[] | err'] e3] end;
        eexists; (split; [reflexivity | right; left; split; reflexivity]).
    + handler_unfold. rewrite Hval, Hups.
      match goal with |- context [reaction_handleCreate ?p ?e] =>
        destruct (reaction_handleCreate p e) as [[[] | err'] e3] end;
        eexists; (split; [reflexivity | right; right; split; reflexivity]).
Qed.

Lemma validateRecord_indexer_calls collection (record : Doc) (w : World) :
  filter is_indexer_call (calls (snd (validateRecord collection record w)))
  = filter is_indexer_call (calls w).
Proof.
  destruct (validateRecord_world collection record w) as [-> | [schema ->]];
    [reflexivity |].
  cbv [add_call calls]. rewrite filter_app. cbn [filter is_indexer_call].
  apply app_nil_r.
Qed.

(** C10. An update event of the reaction collection that passed
    validation enters no indexer: handling ends in the world validation
    left.  The same event of the topic or the reply collection enters
    that indexer's [handleUpdate]. *)
Theorem handle_update_dispatch (event : RecordEvent.t Doc) (record : Doc)
    (w w1 : World) :
  RecordEvent.action event = update ->
  RecordEvent.record event = Some record ->
  validateRecord (RecordEvent.collection event) record w = (Ok (Success record), w1) ->
  let did := RecordEvent.did event in
  let rkey := RecordEvent.rkey event in
  let collection := RecordEvent.collection event in
  let uri := "at://" ++ did ++ "/" ++ collection ++ "/" ++ rkey in
  let params :=
    Params.mk uri rkey did
      (match RecordEvent.cid event with Some c => c | None => "" end)
      record (RecordEvent.live event) trusted in
  (collection = "forum.atgora.interaction.reaction" ->
     handle event w = (Ok tt, w1) /\
     filter is_indexer_call (calls w1) = filter is_indexer_call (calls w)) /\
  (collection = "forum.atgora.topic.post" ->
     exists w2, handle event w = (Ok tt, w2) /\
                calls w2 = (calls w1 ++ [TopicHandleUpdate params])%list) /\
  (collection = "forum.atgora.topic.reply" ->
     exists w2, handle event w = (Ok tt, w2) /\
                calls w2 = (calls w1 ++ [ReplyHandleUpdate params])%list).
Proof.
  destruct event as [id collection action did rkey orecord cid live].
  cbn [RecordEvent.action RecordEvent.did RecordEvent.rkey RecordEvent.collection
       RecordEvent.record RecordEvent.cid RecordEvent.live].
  intros -> -> Hval.
  assert (Hidx := validateRecord_indexer_calls collection record w).
  rewrite Hval in Hidx. cbn [snd] in Hidx.
  destruct w1 as [e1 l1 c1 p1].
  split; [| split]; intros Hc; rewrite Hc in Hval |- *.
  - split; [| exact Hidx]. handler_unfold. rewrite Hval. reflexivity.
  - handler_unfold. rewrite Hval.
    match goal with |- context [topic_handleUpdate ?p ?e] =>
      destruct (topic_handleUpdate p e) as [[[] | err'] e3] end;
      eexists; (split; reflexivity).
  - handler_unfold. rewrite Hval.
    match goal with |- context [reply_handleUpdate ?p ?e] =>
      destruct (reply_handleUpdate p e) as [[[] | err'] e3] end;
      eexists; (split; reflexivity).
Qed.

(** The failures named in C9 do make the [try] throw. *)
Lemma upsertUserWithTrustCheck_select_fails did err e1 (w : World) :
  select_user did (ext w) = (Throw err, e1) ->
  exists w1, upsertUserWithTrustCheck_try did w = (Throw err, w1).
Proof.
  intros Hsel. destruct w as [e l c p]. cbn [ext] in Hsel.
  cbv [upsertUserWithTrustCheck_try bind call issue await add_call set_ext ext log
       calls pending]. rewrite Hsel. eauto.
Qed.

Lemma upsertUserWithTrustCheck_resolve_fails did err e1 e2 (w : World) :
  select_user did (ext w) = (Ok [], e1) ->
  resolveCreationDate did e1 = (Throw err, e2) ->
  exists w1, upsertUserWithTrustCheck_try did w = (Throw err, w1).
Proof.
  intros Hsel Hres. destruct w as [e l c p]. cbn [ext] in Hsel.
  cbv [upsertUserWithTrustCheck_try bind call issue await add_call set_ext ext log
       calls pending]. rewrite Hsel, Hres. eauto.
Qed.

Lemma upsertUserWithTrustCheck_insert_fails did createdAt err e1 e2 e3 (w : World) :
  select_user did (ext w) = (Ok [], e1) ->
  resolveCreationDate did e1 = (Ok createdAt, e2) ->
  insert_user did did createdAt e2 = (Throw err, e3) ->
  exists w1, upsertUserWithTrustCheck_try did w = (Throw err, w1).
Proof.
  intros Hsel Hres Hins. destruct w as [e l c p]. cbn [ext] in Hsel.
  cbv [upsertUserWithTrustCheck_try bind call issue await add_call set_ext ext log
       calls pending]. rewrite Hsel, Hres, Hins. eauto.
Qed.

Lemma upsertUserWithTrustCheck_total did (w : World) :
  exists trustStatus w1, upsertUserWithTrustCheck did w = (Ok trustStatus, w1).
Proof.
  unfold upsertUserWithTrustCheck. apply try_catch_total.
  intros err w0. cbv [bind logAt ret]. eauto.
Qed.

End HandlerProperties.

Section HandlerExamples.
Import Eff Types Validation Handler Fixtures.
Notation reply := "forum.atgora.topic.reply".
Notation reaction := "forum.atgora.interaction.reaction".

Lemma handle_delete_missing_row_witness :
  exists w1,
    handle (event_of reply delete None) (start quiet) = (Ok tt, w1) /\
    calls w1 = [DbSelectReplyRootUri (uri_of reply);
                ReplyHandleDelete (uri_of reply) "3kabc" TEST_DID ""].
Proof.
  destruct (handle_delete_missing_row (event_of reply delete None) quiet (start quiet))
    as [Hreply _].
  - reflexivity.
  - destruct Hreply as [Hhandled _]; [reflexivity | reflexivity |].
    exact Hhandled.
Defined.

Lemma handle_create_trust_fails_open_witness :
  exists w3,
    handle (event_of reply create (Some small_record)) (start outage) = (Ok tt, w3) /\
    calls w3 = [SafeParse topicReplySchema small_record;
                DbSelectUser TEST_DID;
                ReplyHandleCreate (params_of reply trusted)].
Proof.
  destruct (handle_create_trust_fails_open
              (event_of reply create (Some small_record)) small_record
              "Connection lost" (start outage)
              (mkWorld outage [] [SafeParse topicReplySchema small_record] [])
              (mkWorld outage []
                 [SafeParse topicReplySchema small_record; DbSelectUser TEST_DID] []))
    as [_ [w3 [Hhandle [[Hc _] | [[_ Hcalls] | [Hc _]]]]]].
  - reflexivity.
  - reflexivity.
  - vm_compute. reflexivity.
  - vm_compute. reflexivity.
  - discriminate Hc.
  - exists w3. split; [exact Hhandle | exact Hcalls].
  - discriminate Hc.
Defined.

Lemma handle_update_dispatch_witness :
  handle (event_of reaction update (Some small_record)) (start quiet)
  = (Ok tt, mkWorld quiet [] [SafeParse reactionSchema small_record] []).
Proof.
  destruct (handle_update_dispatch
              (event_of reaction update (Some small_record)) small_record
              (start quiet)
              (mkWorld quiet [] [SafeParse reactionSchema small_record] []))
    as [Hreaction _].
  - reflexivity.
  - reflexivity.
  - vm_compute. reflexivity.
  - destruct (Hreaction eq_refl) as [Hhandle _]. exact Hhandle.
Defined.

(** End to end: an account created 2 days ago is indexed as trusted,
    one created 10 minutes ago as new. *)
Example handle_reply_create_account_2d :
  calls (snd (handle (event_of reply create (Some small_record))
                (start (account_aged 2880))))
  = [SafeParse topicReplySchema small_record;
     DbSelectUser TEST_DID;
     ResolveCreationDate TEST_DID;
     DbInsertUser TEST_DID TEST_DID (Some (Clamp.DateAt 1771329600000));
     DetermineTrustStatus (Some (Clamp.DateAt 1771329600000));
     ReplyHandleCreate (params_of reply trusted)].
Proof. vm_compute. reflexivity. Qed.

Example handle_reply_create_account_10min :
  calls (snd (handle (event_of reply create (Some small_record))
                (start (account_aged 10))))
  = [SafeParse topicReplySchema small_record;
     DbSelectUser TEST_DID;
     ResolveCreationDate TEST_DID;
     DbInsertUser TEST_DID TEST_DID (Some (Clamp.DateAt 1771501800000));
     DetermineTrustStatus (Some (Clamp.DateAt 1771501800000));
     ReplyHandleCreate (params_of reply new)].
Proof. vm_compute. reflexivity. Qed.

(** A failing indexer and a failing look-up end in the outer [catch]. *)
Example handle_indexer_failure_logged :
  handle (event_of reply create (Some small_record)) (start indexers_failing)
  = (Ok tt,
     mkWorld indexers_failing
       [mkLogEntry error
          [("err", LErr "indexer failed"); ("eventId", LNum 42);
           ("collection", LStr reply)]
          "Error handling record event"]
       [SafeParse topicReplySchema small_record;
        DbSelectUser TEST_DID;
        ResolveCreationDate TEST_DID;
        DbInsertUser TEST_DID TEST_DID None;
        DetermineTrustStatus None;
        ReplyHandleCreate (params_of reply trusted)]
       []).
Proof. vm_compute. reflexivity. Qed.

Example handle_lookup_failure_logged :
  handle (event_of reaction delete None) (start outage)
  = (Ok tt,
     mkWorld outage
       [mkLogEntry error
          [("err", LErr "Connection lost"); ("eventId", LNum 42);
           ("collection", LStr reaction)]
          "Error handling record event"]
       [DbSelectReactionSubjectUri (uri_of reaction)]
       []).
Proof. vm_compute. reflexivity. Qed.

Example handle_unsupported_collection_dropped :
  handle (event_of "app.bsky.feed.post" create (Some small_record)) (start quiet)
  = (Ok tt, start quiet).
Proof. vm_compute. reflexivity. Qed.

End HandlerExamples.

(* ===================================================================== *)
(** ** Further properties: the clamp *)
(* ===================================================================== *)

Section ClampOrder.
Import Clamp.

(** X1. Clamping is idempotent: a clamped timestamp is not changed by
    clamping it again against the same [now], whatever the two Dates. *)
Theorem clampCreatedAt_idempotent (clientCreatedAt now : Date) :
  clampCreatedAt (clampCreatedAt clientCreatedAt now) now
  = clampCreatedAt clientCreatedAt now.
Proof.
  destruct clientCreatedAt as [| tc], now as [| tn];
    cbv [clampCreatedAt date_gt date_lt num_add num_sub MAX_FUTURE_MS MAX_PAST_MS
         getTime option_map newDate];
    try reflexivity.
  change (5 * 60 * 1000) with 300000. change (60 * 60 * 1000) with 3600000.
  destruct (TimeClip_cases (tn + 300000)) as [[-> Hf] | [-> Hf]];
    destruct (TimeClip_cases (tn - 3600000)) as [[-> Hp] | [-> Hp]];
    unfold time_value, MAX_TIME_VALUE in *;
    repeat match goal with
           | |- context [Z.ltb ?a ?b] => destruct (Z.ltb_spec a b)
           end; try reflexivity; try lia.
Qed.

(** X2. Among timestamps that are not more than five minutes ahead of
    [now], the clamp preserves the order.  (A timestamp further ahead
    is set back to [now], behind those up to five minutes ahead.) *)
Theorem clampCreatedAt_monotone (t1 t2 tn : Z) :
  time_value t1 -> time_value t2 -> time_value tn -> t1 <= t2 -> t2 <= tn + 300000 ->
  exists r1 r2,
    clampCreatedAt (DateAt t1) (DateAt tn) = DateAt r1 /\
    clampCreatedAt (DateAt t2) (DateAt tn) = DateAt r2 /\
    r1 <= r2.
Proof.
  intros H1 H2 Hn Hle Hfut.
  cbv [clampCreatedAt date_gt date_lt num_add num_sub MAX_FUTURE_MS MAX_PAST_MS
       getTime option_map newDate].
  change (5 * 60 * 1000) with 300000. change (60 * 60 * 1000) with 3600000.
  destruct (TimeClip_cases (tn + 300000)) as [[-> Hf] | [-> Hf]];
    destruct (TimeClip_cases (tn - 3600000)) as [[-> Hp] | [-> Hp]];
    unfold time_value, MAX_TIME_VALUE in *;
    repeat match goal with
           | |- context [Z.ltb ?a ?b] => destruct (Z.ltb_spec a b)
           end;
    do 2 eexists; (split; [reflexivity | split; [reflexivity | lia]]).
Qed.

(** X3. The clamp never moves a timestamp away from [now] nor across
    it: the result lies between the client's time and [now]. *)
Theorem clampCreatedAt_closer_to_now (tc tn : Z) :
  time_value tc -> time_value tn ->
  exists r, clampCreatedAt (DateAt tc) (DateAt tn) = DateAt r /\
            Z.abs (r - tn) <= Z.abs (tc - tn) /\
            (tc <= tn -> tc <= r <= tn) /\ (tn <= tc -> tn <= r <= tc).
Proof.
  intros H1 Hn.
  cbv [clampCreatedAt date_gt date_lt num_add num_sub MAX_FUTURE_MS MAX_PAST_MS
       getTime option_map newDate].
  change (5 * 60 * 1000) with 300000. change (60 * 60 * 1000) with 3600000.
  destruct (TimeClip_cases (tn + 300000)) as [[-> Hf] | [-> Hf]];
    destruct (TimeClip_cases (tn - 3600000)) as [[-> Hp] | [-> Hp]];
    unfold time_value, MAX_TIME_VALUE in *;
    repeat match goal with
           | |- context [Z.ltb ?a ?b] => destruct (Z.ltb_spec a b)
           end;
    eexists; (split; [reflexivity | lia]).
Qed.

(** Three minutes ahead stays, ten minutes ahead becomes [now]. *)
Example clampCreatedAt_reorders_far_future :
  clampCreatedAt (DateAt 1771502580000) (DateAt 1771502400000) = DateAt 1771502580000 /\
  clampCreatedAt (DateAt 1771503000000) (DateAt 1771502400000) = DateAt 1771502400000.
Proof. split; reflexivity. Qed.

Lemma clampCreatedAt_monotone_witness :
  exists r1 r2,
    clampCreatedAt (DateAt 1771495200000) (DateAt 1771502400000) = DateAt r1 /\
    clampCreatedAt (DateAt 1771502580000) (DateAt 1771502400000) = DateAt r2 /\
    r1 <= r2.
Proof.
  apply (clampCreatedAt_monotone 1771495200000 1771502580000 1771502400000);
    unfold time_value, MAX_TIME_VALUE; lia.
Defined.

Lemma clampCreatedAt_closer_to_now_witness :
  exists r,
    clampCreatedAt (DateAt 1771503000000) (DateAt 1771502400000) = DateAt r /\
    Z.abs (r - 1771502400000) <= Z.abs (1771503000000 - 1771502400000) /\
    (1771503000000 <= 1771502400000 -> 1771503000000 <= r <= 1771502400000) /\
    (1771502400000 <= 1771503000000 -> 1771502400000 <= r <= 1771503000000).
Proof.
  apply (clampCreatedAt_closer_to_now 1771503000000 1771502400000);
    unfold time_value, MAX_TIME_VALUE; lia.
Defined.

End ClampOrder.

(* ===================================================================== *)
(** ** Further properties: AT URIs *)
(* ===================================================================== *)

Section StringLemmas.
Import AtUri.

Lemma append_assoc_s (a b c : string) : (a ++ b) ++ c = a ++ (b ++ c).
Proof. induction a as [| x a IH]; cbn; [reflexivity | now rewrite IH]. Qed.

Lemma append_nil_r_s (a : string) : a ++ "" = a.
Proof. induction a as [| x a IH]; cbn; [reflexivity | now rewrite IH]. Qed.

Lemma prefix_append p t : String.prefix p (p ++ t) = true.
Proof.
  induction p as [| c p IH]; cbn; [destruct t; reflexivity |].
  destruct (ascii_dec c c); [exact IH | contradiction].
Qed.

Lemma prefix_drop p s :
  String.prefix p s = true -> s = p ++ drop (String.length p) s.
Proof.
  revert s. induction p as [| c p IH]; intros s; [reflexivity |].
  destruct s as [| d s]; cbn; [discriminate |].
  destruct (ascii_dec c d) as [-> | ]; [| intros; discriminate].
  intros H. f_equal. apply IH, H.
Qed.

Lemma drop_append p t : drop (String.length p) (p ++ t) = t.
Proof. induction p as [| c p IH]; cbn; [reflexivity | exact IH]. Qed.

End StringLemmas.

Section AtUriProperties.
Import Eff AtUri.

Lemma split_slash_nonempty s : split_slash s <> [].
Proof.
  destruct s as [| c rest]; cbn; [discriminate |].
  destruct (Ascii.eqb c "/"); [discriminate |].
  destruct (split_slash rest); discriminate.
Qed.

Lemma split_slash_no_slash s : has_slash s = false -> split_slash s = [s].
Proof.
  induction s as [| c rest IH]; cbn; [reflexivity |].
  destruct (Ascii.eqb c "/"); cbn; [discriminate |].
  intros H. rewrite (IH H). reflexivity.
Qed.

Lemma split_slash_app p r :
  split_slash (p ++ "/" ++ r) = (split_slash p ++ split_slash r)%list.
Proof.
  induction p as [| c p IH]; cbn [append split_slash].
  - change (Ascii.eqb "/" "/") with true. cbn. reflexivity.
  - destruct (Ascii.eqb c "/").
    + cbn [append] in IH. rewrite IH. reflexivity.
    + cbn [append] in IH. rewrite IH.
      destruct (split_slash p) as [| q qs] eqn:Hp;
        [exfalso; exact (split_slash_nonempty p Hp) | reflexivity].
Qed.

(** [parts[parts.length - 1]] is the last part. *)
Lemma nth_error_last (l : list string) :
  l <> [] -> nth_error l (List.length l - 1) = Some (List.last l "").
Proof.
  induction l as [| a l IH]; [congruence |]; intros _.
  destruct l as [| b l]; [reflexivity |].
  specialize (IH ltac:(discriminate)).
  cbn [List.length Nat.sub] in IH |- *. rewrite Nat.sub_0_r in IH.
  exact IH.
Qed.

Lemma extractRkey_last uri :
  extractRkey uri
  = if String.eqb (List.last (split_slash uri) "") ""
    then Throw "Invalid AT URI: missing rkey"
    else Ok (List.last (split_slash uri) "").
Proof.
  unfold extractRkey. rewrite nth_error_last by apply split_slash_nonempty. reflexivity.
Qed.

(** The last part is the slash-free end of the string, cut after the
    last slash. *)
Lemma last_part_spec s :
  let l := List.last (split_slash s) "" in
  has_slash l = false /\
  exists p, s = p ++ l /\ (p = "" \/ exists p0, p = p0 ++ "/").
Proof.
  induction s as [| c rest IH]; cbn [split_slash].
  - cbn. split; [reflexivity |]. exists "". auto.
  - destruct IH as [Hl [p [Hs Hp]]].
    destruct (Ascii.eqb_spec c "/") as [-> | Hc].
    + replace (List.last ("" :: split_slash rest) "") with (List.last (split_slash rest) "").
      2:{ destruct (split_slash rest) eqn:E; [exfalso; exact (split_slash_nonempty _ E) | reflexivity]. }
      cbn zeta. split; [exact Hl |].
      exists ("/" ++ p). split; [cbn [append]; f_equal; exact Hs |].
      right. destruct Hp as [-> | [p0 ->]]; [exists ""; reflexivity |].
      exists ("/" ++ p0). reflexivity.
    + destruct (split_slash rest) as [| q qs] eqn:E;
        [exfalso; exact (split_slash_nonempty _ E) |].
      destruct qs as [| q' qs'].
      * cbn [List.last] in *. cbn zeta in *.
        assert (Hrest : has_slash rest = false).
        { destruct Hp as [-> | [p0 ->]].
          - cbn in Hs. now subst.
          - (* rest contains a slash, so it splits in two parts at least *)
            exfalso. rewrite Hs in E. rewrite append_assoc_s in E.
            rewrite split_slash_app in E.
            destruct (split_slash p0) as [| a l0] eqn:E0;
              [exact (split_slash_nonempty _ E0) |].
            destruct (split_slash q) as [| b l1] eqn:E1;
              [exact (split_slash_nonempty _ E1) |].
            cbn in E. injection E as _ E. destruct l0; discriminate. }
        rewrite (split_slash_no_slash _ Hrest) in E. injection E as <-.
        split.
        -- cbn. destruct (Ascii.eqb_spec c "/"); [contradiction | exact Hrest].
        -- exists "". auto.
      * change (List.last (String c q :: q' :: qs') "") with (List.last (q :: q' :: qs') "").
        cbn zeta. split; [exact Hl |].
        destruct Hp as [-> | [p0 ->]].
        -- exfalso. change (rest = List.last (q :: q' :: qs') "") in Hs.
           assert (E' := split_slash_no_slash _ Hl). rewrite <- Hs, E in E'.
           discriminate.
        -- exists (String c (p0 ++ "/")). split; [cbn [append]; f_equal; exact Hs |].
           right. exists (String c p0). reflexivity.
Qed.

Lemma extractRkey_append (prefix rkey : string) :
  rkey <> "" -> has_slash rkey = false ->
  extractRkey (prefix ++ "/" ++ rkey) = Ok rkey.
Proof.
  intros Hne Hslash. rewrite extractRkey_last, split_slash_app.
  rewrite (split_slash_no_slash _ Hslash).
  rewrite List.last_last.
  destruct (String.eqb_spec rkey ""); [contradiction | reflexivity].
Qed.

(** X4. [extractRkey] throws exactly for the empty string and for a
    string that ends in a slash; otherwise it returns the non-empty,
    slash-free end of the string that follows the last slash. *)
Theorem extractRkey_cases (uri : string) :
  (extractRkey uri = Throw "Invalid AT URI: missing rkey"
   <-> uri = "" \/ exists p, uri = p ++ "/") /\
  (forall rkey, extractRkey uri = Ok rkey ->
     rkey <> "" /\ has_slash rkey = false /\
     exists p, uri = p ++ rkey /\ (p = "" \/ exists p0, p = p0 ++ "/")).
Proof.
  rewrite extractRkey_last.
  destruct (last_part_spec uri) as [Hl [p [Hs Hp]]]. cbn zeta in *.
  destruct (String.eqb_spec (List.last (split_slash uri) "") "") as [He | Hne].
  - split.
    + split; [intros _ | reflexivity].
      rewrite He, append_nil_r_s in Hs. subst p.
      destruct Hp as [-> | [p0 ->]]; [left; reflexivity | right; eauto].
    + intros rkey H. discriminate.
  - split.
    + split; [discriminate |]. intros [-> | [p1 ->]].
      * exfalso. apply Hne. reflexivity.
      * exfalso. apply Hne.
        change (p1 ++ "/") with (p1 ++ "/" ++ ""). rewrite split_slash_app.
        cbn [split_slash]. rewrite List.last_last. reflexivity.
    + intros rkey H. injection H as <-. split; [exact Hne |]. split; [exact Hl |].
      exists p. split; assumption.
Qed.

Lemma span_not_slash_spec s :
  let (run, tail) := span_not_slash s in
  s = run ++ tail /\ has_slash run = false /\
  (tail = "" \/ exists t, tail = "/" ++ t).
Proof.
  induction s as [| c rest IH]; cbn [span_not_slash].
  - cbn. auto.
  - destruct (Ascii.eqb_spec c "/") as [-> | Hc].
    + cbn. split; [reflexivity |]. split; [reflexivity |]. right. exists rest. reflexivity.
    + destruct (span_not_slash rest) as [run tail]. destruct IH as [Hs [Hr Ht]].
      split; [cbn; f_equal; exact Hs |]. split; [| exact Ht].
      cbn. destruct (Ascii.eqb_spec c "/"); [contradiction | exact Hr].
Qed.

Lemma span_not_slash_app m t :
  has_slash m = false -> span_not_slash (m ++ "/" ++ t) = (m, "/" ++ t).
Proof.
  induction m as [| c m IH]; cbn [append span_not_slash has_slash].
  - reflexivity.
  - destruct (Ascii.eqb c "/"); cbn [orb]; [discriminate |].
    intros H. cbn [append] in IH. rewrite (IH H). reflexivity.
Qed.

Lemma extractDidFromUri_build (m rest : string) :
  m <> "" -> has_slash m = false ->
  extractDidFromUri ("at://" ++ ("did:" ++ m) ++ "/" ++ rest) = Some ("did:" ++ m).
Proof.
  intros Hne Hslash. unfold extractDidFromUri.
  change ("at://" ++ ("did:" ++ m) ++ "/" ++ rest)
    with ("at://did:" ++ (m ++ "/" ++ rest)).
  rewrite prefix_append.
  change 9%nat with (String.length "at://did:"). rewrite drop_append.
  rewrite (span_not_slash_app _ _ Hslash).
  destruct m as [| c m]; [contradiction | reflexivity].
Qed.

(** X5. [extractDidFromUri] returns a DID exactly for a string of the
    form [at://did:<m>/<rest>] with [<m>] non-empty and free of slashes,
    and the DID is [did:<m>]. *)
Theorem extractDidFromUri_spec (uri did : string) :
  extractDidFromUri uri = Some did
  <-> exists m rest,
        m <> "" /\ has_slash m = false /\
        did = "did:" ++ m /\ uri = "at://" ++ did ++ "/" ++ rest.
Proof.
  split; [unfold extractDidFromUri |].
  - destruct (String.prefix "at://did:" uri) eqn:Hp; [| discriminate].
    apply prefix_drop in Hp. change (String.length "at://did:") with 9%nat in Hp.
    assert (Hspan := span_not_slash_spec (drop 9 uri)).
    destruct (span_not_slash (drop 9 uri)) as [run tail].
    destruct Hspan as [Hs [Hr Ht]].
    destruct run as [| c run]; [discriminate |].
    destruct tail as [| d tail]; [discriminate |].
    destruct (Ascii.eqb_spec d "/") as [-> | ]; [| discriminate].
    intros H. injection H as <-.
    exists (String c run), tail. split; [discriminate |]. split; [exact Hr |].
    split; [reflexivity |].
    rewrite Hp, Hs. cbn [append]. reflexivity.
  - intros [m [rest [Hne [Hslash [-> ->]]]]].
    apply extractDidFromUri_build; assumption.
Qed.

(** X6. The URI the record handler builds for an event of a DID
    [did:<m>] decomposes again: [extractDidFromUri] gives the event's
    identity and [extractRkey] its record key. *)
Theorem handler_uri_decomposes (m collection rkey : string) :
  m <> "" -> has_slash m = false -> rkey <> "" -> has_slash rkey = false ->
  let did := "did:" ++ m in
  let uri := "at://" ++ did ++ "/" ++ collection ++ "/" ++ rkey in
  extractDidFromUri uri = Some did /\ extractRkey uri = Ok rkey.
Proof.
  intros Hm Hms Hr Hrs did uri. split.
  - apply (extractDidFromUri_build m (collection ++ "/" ++ rkey)); assumption.
  - subst uri.
    replace ("at://" ++ did ++ "/" ++ collection ++ "/" ++ rkey)
      with (("at://" ++ did ++ "/" ++ collection) ++ "/" ++ rkey)
      by (rewrite !append_assoc_s; reflexivity).
    apply extractRkey_append; assumption.
Qed.

Lemma handler_uri_decomposes_witness :
  extractDidFromUri "at://did:plc:abc123def456/forum.atgora.topic.reply/3kabc"
  = Some "did:plc:abc123def456" /\
  extractRkey "at://did:plc:abc123def456/forum.atgora.topic.reply/3kabc" = Ok "3kabc".
Proof.
  apply (handler_uri_decomposes "plc:abc123def456" "forum.atgora.topic.reply" "3kabc");
    first [discriminate | reflexivity].
Defined.

End AtUriProperties.

(* ===================================================================== *)
(** ** Further properties: validation, verifier and handler *)
(* ===================================================================== *)

Ltac split_matches :=
  repeat match goal with
         | |- context [match ?x with _ => _ end] =>
             lazymatch x with
             | context [match _ with _ => _ end] => fail
             | _ => destruct x eqn:?
             end
         end.

Ltac units := repeat match goal with a : unit |- _ => destruct a end.

Section ValidationSoundness.
Import Eff Types Validation.
Context {E T Doc : Type} {serializer : Serializable Doc} {lexicons : Lexicons Doc}.
Notation World := (World E (Call Doc) T).

(** X7. A record [validateRecord] accepts is handed back as it came, is
    of a supported collection, serializes to at most 65536 code units
    and was accepted by the schema of its collection, which ran once. *)
Theorem validateRecord_Success_sound collection (record data : Doc) (w w1 : World) :
  validateRecord collection record w = (Ok (Success data), w1) ->
  data = record /\
  isSupportedCollection collection = true /\
  exists s schema,
    JSON_stringify record = Ok (Some s) /\
    Z.of_nat (List.length s) <= 65536 /\
    schemaMap collection = Some schema /\
    safeParse schema record = Ok true /\
    w1 = add_call (SafeParse schema record) w.
Proof.
  cbv [validateRecord bind lift serialized_length ret throw issue].
  destruct (isSupportedCollection collection); cbv [negb]; [| discriminate].
  destruct (JSON_stringify record) as [[s |] | err] eqn:Hs; try discriminate.
  change MAX_RECORD_SIZE with 65536.
  destruct (Z.gtb_spec (Z.of_nat (List.length s)) 65536); [discriminate |].
  destruct (schemaMap collection) as [schema |] eqn:Hschema; [| discriminate].
  destruct (safeParse schema record) as [[|] | err] eqn:Hparse; try discriminate.
  intros Hrun. injection Hrun as <- <-.
  split; [reflexivity |]. split; [reflexivity |].
  exists s, schema.
  split; [reflexivity | split; [lia | split; [reflexivity | split; [exact Hparse | reflexivity]]]].
Qed.

End ValidationSoundness.

Section ValidationSoundnessExample.
Import Eff Types Validation Fixtures.

Lemma validateRecord_Success_sound_witness :
  isSupportedCollection "forum.atgora.topic.post" = true /\
  exists s schema,
    JSON_stringify small_record = Ok (Some s) /\
    Z.of_nat (List.length s) <= 65536 /\
    schemaMap "forum.atgora.topic.post" = Some schema /\
    safeParse schema small_record = Ok true.
Proof.
  destruct (validateRecord_Success_sound (E := Outside) (T := Empty_set)
              "forum.atgora.topic.post" small_record small_record (start quiet)
              (add_call (SafeParse topicPostSchema small_record) (start quiet)))
    as [_ [Hsup [s [schema [Hs [Hlen [Hschema [Hparse _]]]]]]]].
  - vm_compute. reflexivity.
  - split; [exact Hsup |]. exists s, schema. auto.
Defined.

End ValidationSoundnessExample.

Section VerifierDiscipline.
Import Eff Verifier.
Context {E : Type} {cache : Cache E} {network : Network E} {clock : Clock E}
  {json : EntryJson}.
Notation World := (World E Call Task).

Ltac verifier_unfold :=
  cbv [verify tryCache resolveAndCache resolveFromPlc resolveFromPlc_request
       resolveFromPlc_response cacheResult cacheResult_request cacheResult_response
       backgroundRefresh run_task
       try_catch bind call issue await ask lift ret throw logAt detach
       add_call add_log add_pending set_ext ext log calls pending fst snd negb].

(** X8. One [verify] reads the cache at most once, asks the directory
    at most once and only after the cache read, and writes the cache at
    most once and only after the directory was asked; for an identity
    that is not [did:plc] it issues no call at all. *)
Theorem verify_call_discipline (did : string) (w : World) :
  let key := DID_DOC_CACHE_PREFIX ++ did in
  let url := PLC_DIRECTORY_URL ++ "/" ++ did in
  exists l,
    calls (snd (verify did w)) = (calls w ++ l)%list /\
    (String.prefix "did:plc:" did = false /\ l = []
     \/ String.prefix "did:plc:" did = true /\
        (l = [CacheGet key]
         \/ l = [CacheGet key; Fetch url PLC_FETCH_TIMEOUT]
         \/ exists value,
              l = [CacheGet key; Fetch url PLC_FETCH_TIMEOUT;
                   CacheSet key value "EX" DID_DOC_HARD_TTL])).
Proof.
  intros key url. subst key url.
  destruct w as [e l0 c p].
  set (added := fun x : Result DidVerificationResult * World => calls (snd x)).
  change (calls (snd (verify did (mkWorld e l0 c p))))
    with (added (verify did (mkWorld e l0 c p))).
  cbn [calls].
  unfold verify. destruct (String.prefix "did:plc:" did) eqn:Hplc; cbn [negb].
  2:{ exists []. subst added. cbv [ret snd calls]. rewrite app_nil_r. auto. }
  verifier_unfold.
  split_matches; subst added; cbv [snd calls];
    first
      [ exists [CacheGet (DID_DOC_CACHE_PREFIX ++ did)];
        split; [reflexivity | right; split; [reflexivity | left; reflexivity]]
      | exists [CacheGet (DID_DOC_CACHE_PREFIX ++ did);
                Fetch (PLC_DIRECTORY_URL ++ "/" ++ did) PLC_FETCH_TIMEOUT];
        split; [rewrite <- !app_assoc; reflexivity
               | right; split; [reflexivity | right; left; reflexivity]]
      | eexists;
        split; [rewrite <- !app_assoc; reflexivity
               | right; split; [reflexivity | right; right; eexists; reflexivity]] ].
Qed.

(** X9. A failed resolution is not cached: with nothing usable in the
    cache, when the request fails or the status is neither success, 410
    nor 404, [verify] answers "DID document resolution failed", issues
    no cache write and leaves no promise behind. *)
Theorem verify_failure_not_cached (did : string) (e1 e2 : E)
    (answer : Result Response.t) (w : World) :
  String.prefix "did:plc:" did = true ->
  no_usable_cache_entry did (ext w) e1 ->
  fetch (PLC_DIRECTORY_URL ++ "/" ++ did) PLC_FETCH_TIMEOUT e1 = (answer, e2) ->
  (forall response, answer = Ok response ->
     Response.ok response = false /\
     Response.status response <> 410 /\ Response.status response <> 404) ->
  exists w1,
    verify did w = (Ok (Inactive "DID document resolution failed"), w1) /\
    ext w1 = e2 /\
    calls w1 = (calls w ++ [CacheGet (DID_DOC_CACHE_PREFIX ++ did);
                            Fetch (PLC_DIRECTORY_URL ++ "/" ++ did) PLC_FETCH_TIMEOUT])%list /\
    pending w1 = pending w.
Proof.
  intros Hplc Hno Hfetch Hbad.
  destruct (tryCache_no_entry network did e1 w Hno) as [l1 Htry].
  unfold verify. rewrite Hplc. cbn [negb]. rewrite (bind_Ok _ _ _ _ _ Htry).
  destruct w as [e l c p]. cbn [ext log calls pending] in *.
  verifier_unfold. rewrite Hfetch.
  destruct answer as [[ok status] | err].
  - destruct (Hbad _ eq_refl) as [Hok [H410 H404]]. cbn [Response.ok Response.status] in *.
    subst ok. cbv [Response.ok Response.status].
    destruct (Z.eqb_spec status 410); [contradiction |].
    destruct (Z.eqb_spec status 404); [contradiction |].
    eexists. split; [reflexivity |]. cbv [ext calls pending].
    rewrite <- app_assoc. auto.
  - eexists. split; [reflexivity |]. cbv [ext calls pending].
    rewrite <- app_assoc. auto.
Qed.

(** X10. The background refresh writes to the cache exactly the verdict
    the directory resolution returned, stamped with the time after the
    answer and with the hard TTL; when the resolution fails it writes
    nothing, so the stale entry stays. *)
Theorem backgroundRefresh_outcome (did url : string) (w : World) :
  (forall v w1 now e2,
     resolveFromPlc_response did url w = (Ok v, w1) ->
     Date_now (ext w1) = (now, e2) ->
     let value :=
       JSON_stringify_entry
         (CachedDidEntry.mk
            (match v with Active => true | Inactive _ => false end)
            (match v with Active => None | Inactive reason => Some reason end)
            now) in
     exists w2,
       run_task (BackgroundRefresh did url) w = (Ok tt, w2) /\
       calls w2 = (calls w ++ [CacheSet (DID_DOC_CACHE_PREFIX ++ did) value "EX"
                                 DID_DOC_HARD_TTL])%list /\
       ext w2 = snd (cache_set (DID_DOC_CACHE_PREFIX ++ did) value "EX"
                       DID_DOC_HARD_TTL e2)) /\
  (forall err w1,
     resolveFromPlc_response did url w = (Throw err, w1) ->
     exists w2,
       run_task (BackgroundRefresh did url) w = (Ok tt, w2) /\
       calls w2 = calls w /\ ext w2 = ext w1 /\ pending w2 = pending w).
Proof.
  destruct w as [e l c p]. split.
  - intros v w1 now e2 Hres Hnow value. subst value.
    assert (Hcalls : calls w1 = c).
    { revert Hres. cbv [resolveFromPlc_response bind await logAt throw ret set_ext add_log
                        ext log calls pending].
      split_matches; intros H; injection H as ? ?; subst; reflexivity. }
    destruct w1 as [e1 l1 c1 p1]. cbn [ext calls] in *. subst c1.
    cbv [run_task try_catch]. rewrite (bind_Ok _ _ _ _ _ Hres).
    cbv [cacheResult cacheResult_request cacheResult_response bind ask issue await
         ret logAt add_call add_log set_ext ext log calls pending fst snd].
    rewrite Hnow.
    destruct (cache_set _ _ _ _ e2) as [[[] | err] e3]; cbn [snd];
      eexists; (split; [reflexivity | split; reflexivity]).
  - intros err w1 Hres.
    assert (Hkeep : calls w1 = c /\ pending w1 = p).
    { revert Hres. cbv [resolveFromPlc_response bind await logAt throw ret set_ext add_log
                        ext log calls pending].
      split_matches; intros H; injection H as ? ?; subst; auto. }
    destruct Hkeep as [Hc Hp].
    cbv [run_task try_catch]. rewrite (bind_Throw _ _ _ _ _ Hres).
    cbv [logAt add_log]. eexists. split; [reflexivity |]. cbn [calls ext pending]. auto.
Qed.

(** X11. Round trip through the cache: the text [cacheResult] writes
    for a verdict, read back by [verify] within the soft TTL and parsed
    to the entry it was made from, gives that verdict again with no
    request to the directory. *)
Theorem cached_verdict_round_trip (did : string) (v : DidVerificationResult)
    (now0 now : Z) (e0 e1 e2 : E) (w0 w : World) :
  String.prefix "did:plc:" did = true ->
  Date_now (ext w0) = (now0, e0) ->
  let entry :=
    CachedDidEntry.mk
      (match v with Active => true | Inactive _ => false end)
      (match v with Active => None | Inactive reason => Some reason end)
      now0 in
  let key := DID_DOC_CACHE_PREFIX ++ did in
  JSON_parse_entry (JSON_stringify_entry entry) = Ok entry ->
  cache_get key (ext w) = (Ok (Some (JSON_stringify_entry entry)), e1) ->
  Date_now e1 = (now, e2) ->
  now - now0 <= DID_DOC_SOFT_TTL * 1000 ->
  calls (snd (cacheResult_request did v w0))
  = (calls w0 ++ [CacheSet key (JSON_stringify_entry entry) "EX" DID_DOC_HARD_TTL])%list /\
  verify did w = (Ok v, mkWorld e2 (log w) (calls w ++ [CacheGet key]) (pending w)).
Proof.
  intros Hplc Hnow0 entry key Hparse Hget Hnow Hage. subst key. split.
  - destruct w0 as [e l c p]. cbn [ext] in Hnow0.
    cbv [cacheResult_request bind ask issue ret add_call set_ext ext log calls pending].
    rewrite Hnow0. reflexivity.
  - destruct w as [e l c p]. cbn [ext log calls pending] in *.
    verifier_unfold. rewrite Hplc, Hget, Hparse, Hnow.
    change (CachedDidEntry.resolvedAt entry) with now0.
    destruct (Z.gtb_spec (now - now0) (DID_DOC_SOFT_TTL * 1000)); [lia |].
    subst entry. destruct v; reflexivity.
Qed.

End VerifierDiscipline.

Section VerifierDisciplineExamples.
Import Eff Verifier Fixtures.

Lemma verify_failure_not_cached_witness :
  exists w1,
    verify TEST_DID (start unreachable)
    = (Ok (Inactive "DID document resolution failed"), w1) /\
    calls w1 = [CacheGet "barazo:did-doc:did:plc:abc123def456";
                Fetch "https://plc.directory/did:plc:abc123def456" 5000] /\
    pending w1 = [].
Proof.
  destruct (verify_failure_not_cached TEST_DID unreachable unreachable
              (Throw "Network error") (start unreachable))
    as [w1 [Hv [_ [Hcalls Hpending]]]].
  - reflexivity.
  - left. reflexivity.
  - reflexivity.
  - intros response H. discriminate H.
  - exists w1. auto.
Defined.

Lemma cached_verdict_round_trip_witness :
  verify TEST_DID
    (start (mkOutside
              [(DID_DOC_CACHE_PREFIX ++ TEST_DID,
                JSON_stringify_entry
                  (CachedDidEntry.mk false (Some "DID has been tombstoned") 1771500600000))]
              false 1771502400000 (Throw "Network error") false [] [] [] (Ok None) false))
  = (Ok (Inactive "DID has been tombstoned"),
     mkWorld
       (mkOutside
          [(DID_DOC_CACHE_PREFIX ++ TEST_DID,
            JSON_stringify_entry
              (CachedDidEntry.mk false (Some "DID has been tombstoned") 1771500600000))]
          false 1771502400000 (Throw "Network error") false [] [] [] (Ok None) false)
       [] [CacheGet (DID_DOC_CACHE_PREFIX ++ TEST_DID)] []).
Proof.
  destruct (cached_verdict_round_trip TEST_DID (Inactive "DID has been tombstoned")
              1771500600000 1771502400000
              (mkOutside [] false 1771500600000 (Ok (Response.mk false 410)) false [] [] []
                 (Ok None) false)
              (mkOutside
                 [(DID_DOC_CACHE_PREFIX ++ TEST_DID,
                   JSON_stringify_entry
                     (CachedDidEntry.mk false (Some "DID has been tombstoned")
                        1771500600000))]
                 false 1771502400000 (Throw "Network error") false [] [] [] (Ok None) false)
              (mkOutside
                 [(DID_DOC_CACHE_PREFIX ++ TEST_DID,
                   JSON_stringify_entry
                     (CachedDidEntry.mk false (Some "DID has been tombstoned")
                        1771500600000))]
                 false 1771502400000 (Throw "Network error") false [] [] [] (Ok None) false)
              (start (mkOutside [] false 1771500600000 (Ok (Response.mk false 410)) false
                        [] [] [] (Ok None) false))
              (start (mkOutside
                        [(DID_DOC_CACHE_PREFIX ++ TEST_DID,
                          JSON_stringify_entry
                            (CachedDidEntry.mk false (Some "DID has been tombstoned")
                               1771500600000))]
                        false 1771502400000 (Throw "Network error") false [] [] []
                        (Ok None) false)))
    as [_ Hread].
  - reflexivity.
  - reflexivity.
  - vm_compute. reflexivity.
  - reflexivity.
  - reflexivity.
  - vm_compute. discriminate.
  - exact Hread.
Defined.

End VerifierDisciplineExamples.

Section HandlerDiscipline.
Import Eff Types Validation Handler.
Context {E Doc : Type}.
Context {serializer : Serializable Doc} {lexicons : Lexicons Doc}.
Context {db : Database E} {accountAgeService : AccountAgeService E}
  {indexers : Indexers E Doc}.
Notation World := (World E (Call Doc) Empty_set).
Notation M := (M E (Call Doc) Empty_set).
Notation idx w := (filter is_indexer_call (calls w)).

Ltac handler_step :=
  cbv [handle handle_try dispatchDelete dispatchCreate dispatchUpdate
       upsertUserWithTrustCheck first_rootUri first_subjectUri
       try_catch bind call issue await lift ret throw logAt
       add_call add_log add_pending set_ext ext log calls pending
       RecordEvent.id RecordEvent.collection RecordEvent.action RecordEvent.did
       RecordEvent.rkey RecordEvent.record RecordEvent.cid RecordEvent.live
       isSupportedCollection SUPPORTED_COLLECTIONS COLLECTION_MAP existsb];
  cbn [String.eqb Ascii.eqb Bool.eqb orb negb].

Ltac filter_calls :=
  cbv [snd calls]; rewrite ?filter_app; cbn [filter is_indexer_call];
  rewrite ?app_nil_r.

Lemma upsertUserWithTrustCheck_no_indexer did (w : World) :
  idx (snd (upsertUserWithTrustCheck did w)) = idx w.
Proof.
  destruct w as [e l c p].
  set (added := fun x : Result TrustStatus * World => idx (snd x)).
  change (added (upsertUserWithTrustCheck did (mkWorld e l c p)) = filter is_indexer_call c).
  cbv [upsertUserWithTrustCheck upsertUserWithTrustCheck_try toISOString_opt
       try_catch bind call issue await lift ret throw logAt
       add_call add_log set_ext ext log calls pending].
  split_matches; subst added; filter_calls; reflexivity.
Qed.

Ltac at_most_one :=
  split_matches;
  match goal with added := _ |- _ => subst added end;
  filter_calls;
  first [ exists []; split; [rewrite app_nil_r; reflexivity | left; reflexivity]
        | eexists; split; [reflexivity | right; eexists; reflexivity] ].

Lemma dispatchCreate_at_most_one (indexerName : option string) (params : Params.t Doc)
    (w : World) :
  exists l, idx (snd (dispatchCreate indexerName params w)) = (idx w ++ l)%list
            /\ (l = [] \/ exists c, l = [c]).
Proof.
  destruct w as [e l0 c p].
  set (added := fun x : Result unit * World => idx (snd x)).
  change (exists l, added (dispatchCreate indexerName params (mkWorld e l0 c p))
                    = (filter is_indexer_call c ++ l)%list /\ (l = [] \/ exists c, l = [c])).
  cbv [dispatchCreate bind call issue await ret add_call set_ext ext log calls pending].
  at_most_one.
Qed.

Lemma dispatchUpdate_at_most_one (indexerName : option string) (params : Params.t Doc)
    (w : World) :
  exists l, idx (snd (dispatchUpdate indexerName params w)) = (idx w ++ l)%list
            /\ (l = [] \/ exists c, l = [c]).
Proof.
  destruct w as [e l0 c p].
  set (added := fun x : Result unit * World => idx (snd x)).
  change (exists l, added (dispatchUpdate indexerName params (mkWorld e l0 c p))
                    = (filter is_indexer_call c ++ l)%list /\ (l = [] \/ exists c, l = [c])).
  cbv [dispatchUpdate bind call issue await ret add_call set_ext ext log calls pending].
  at_most_one.
Qed.

Lemma dispatchDelete_at_most_one (indexerName : option string) (uri rkey did : string)
    (w : World) :
  exists l, idx (snd (dispatchDelete indexerName uri rkey did w)) = (idx w ++ l)%list
            /\ (l = [] \/ exists c, l = [c]).
Proof.
  destruct w as [e l0 c p].
  set (added := fun x : Result unit * World => idx (snd x)).
  change (exists l, added (dispatchDelete indexerName uri rkey did (mkWorld e l0 c p))
                    = (filter is_indexer_call c ++ l)%list /\ (l = [] \/ exists c, l = [c])).
  cbv [dispatchDelete first_rootUri first_subjectUri
       bind call issue await ret logAt add_log add_call set_ext ext log calls pending].
  at_most_one.
Qed.

Lemma validateRecord_Success_data collection (record data : Doc) (w w1 : World) :
  validateRecord collection record w = (Ok (Success data), w1) -> data = record.
Proof.
  cbv [validateRecord bind lift serialized_length ret throw issue].
  split_matches; intros H; try discriminate; injection H as ? ?; congruence.
Qed.

Lemma handle_idx (event : RecordEvent.t Doc) (w : World) :
  idx (snd (handle event w)) = idx (snd (handle_try event w)).
Proof.
  unfold handle, try_catch. destruct (handle_try event w) as [[[] | err] w1]; reflexivity.
Qed.

Lemma snd_bind {A B} (m : M A) (k : A -> M B) (w : World) :
  snd (bind m k w)
  = match m w with
    | (Ok a, w1) => snd (k a w1)
    | (Throw _, w1) => w1
    end.
Proof. unfold bind. destruct (m w) as [[a | err] w1]; reflexivity. Qed.

(** X12. One event makes at most one indexer call, and makes one only
    if its collection is supported and, unless it is a delete, its
    record passed validation. *)
Theorem handle_enters_indexer_at_most_once (event : RecordEvent.t Doc) (w : World) :
  exists l,
    idx (snd (handle event w)) = (idx w ++ l)%list /\
    (l = []
     \/ (exists c, l = [c]) /\
        isSupportedCollection (RecordEvent.collection event) = true /\
        (RecordEvent.action event = delete
         \/ exists record,
              RecordEvent.record event = Some record /\
              fst (validateRecord (RecordEvent.collection event) record w)
              = Ok (Success record))).
Proof.
  rewrite handle_idx.
  destruct event as [id collection action did rkey orecord cid live].
  cbv [handle_try RecordEvent.collection RecordEvent.action RecordEvent.did
       RecordEvent.rkey RecordEvent.record RecordEvent.cid RecordEvent.live].
  assert (Hnone : exists l : list (Call Doc), idx w = (idx w ++ l)%list /\ l = []).
  { exists []. rewrite app_nil_r. auto. }
  destruct (isSupportedCollection collection) eqn:Hsup; cbn [negb].
  2:{ destruct Hnone as [l [H1 H2]]. exists l. cbv [ret snd]. auto. }
  assert (Hvalid : forall (k : TrustStatus -> M unit) (mt : M TrustStatus) record,
            orecord = Some record ->
            (forall w0, idx (snd (mt w0)) = idx w0) ->
            (forall t w0, exists l, idx (snd (k t w0)) = (idx w0 ++ l)%list
                                    /\ (l = [] \/ exists c, l = [c])) ->
            exists l,
              idx (snd (bind (validateRecord collection record)
                          (fun validation =>
                             match validation with
                             | Failure message =>
                                 logAt debug
                                   [("collection", LStr collection); ("did", LStr did);
                                    ("rkey", LStr rkey); ("error", LStr message)]
                                   "Record validation failed"
                             | Success _ => bind mt k
                             end) w))
              = (idx w ++ l)%list /\
              (l = [] \/ (exists c, l = [c]) /\ true = true /\
                 (action = delete \/ exists record0, orecord = Some record0 /\
                    fst (validateRecord collection record0 w) = Ok (Success record0)))).
  { intros k mt record Hrec Hmt Hk. rewrite snd_bind.
    assert (Hv := validateRecord_indexer_calls collection record w).
    destruct (validateRecord collection record w) as [[[data | message] | err] w1] eqn:Hval;
      cbn [snd] in Hv.
    - rewrite snd_bind. specialize (Hmt w1).
      destruct (mt w1) as [[t | err] w2]; cbn [snd] in Hmt.
      + destruct (Hk t w2) as [l [Hl Hone]]. exists l. rewrite Hl, Hmt, Hv.
        split; [reflexivity |]. destruct Hone as [-> | Hone]; [left; reflexivity |].
        right. split; [exact Hone |]. split; [reflexivity |]. right.
        exists record. split; [exact Hrec |].
        rewrite (validateRecord_Success_data _ _ _ _ _ Hval) in Hval.
        rewrite Hval. reflexivity.
      + exists []. rewrite Hmt, Hv, app_nil_r. auto.
    - exists []. cbv [logAt snd add_log calls]. cbv [calls] in Hv. rewrite app_nil_r.
      destruct w1. auto.
    - exists []. rewrite Hv, app_nil_r. auto. }
  destruct action.
  - (* create *)
    destruct orecord as [record |].
    + apply (Hvalid
               (fun trustStatus =>
                  dispatchCreate (COLLECTION_MAP collection)
                    (Params.mk ("at://" ++ did ++ "/" ++ collection ++ "/" ++ rkey) rkey did
                       (match cid with Some c => c | None => "" end)
                       record live trustStatus))
               (upsertUserWithTrustCheck did) record eq_refl).
      * intros w0. apply upsertUserWithTrustCheck_no_indexer.
      * intros t w0. apply dispatchCreate_at_most_one.
    + destruct Hnone as [l [H1 H2]]. exists l. cbv [logAt snd add_log calls].
      cbv [calls] in H1. destruct w. auto.
  - (* update *)
    destruct orecord as [record |].
    + apply (Hvalid
               (fun trustStatus =>
                  dispatchUpdate (COLLECTION_MAP collection)
                    (Params.mk ("at://" ++ did ++ "/" ++ collection ++ "/" ++ rkey) rkey did
                       (match cid with Some c => c | None => "" end)
                       record live trustStatus))
               (ret trusted) record eq_refl).
      * intros w0. reflexivity.
      * intros t w0. apply dispatchUpdate_at_most_one.
    + destruct Hnone as [l [H1 H2]]. exists l. cbv [logAt snd add_log calls].
      cbv [calls] in H1. destruct w. auto.
  - (* delete *)
    destruct (dispatchDelete_at_most_one (COLLECTION_MAP collection)
                ("at://" ++ did ++ "/" ++ collection ++ "/" ++ rkey) rkey did w)
      as [l [Hl Hone]].
    exists l. split; [exact Hl |].
    destruct Hone as [-> | Hone]; [left; reflexivity | right; auto].
Qed.

(** X13. A reply (reaction) delete hands the indexer the [rootUri]
    ([subjectUri]) of the first row its look-up finds; a topic delete
    makes no look-up. *)
Theorem handle_delete_stored_reference (event : RecordEvent.t Doc) (e1 : E) (w : World) :
  RecordEvent.action event = delete ->
  let did := RecordEvent.did event in
  let rkey := RecordEvent.rkey event in
  let collection := RecordEvent.collection event in
  let uri := "at://" ++ did ++ "/" ++ collection ++ "/" ++ rkey in
  (collection = "forum.atgora.topic.reply" ->
   forall row rows,
     select_reply_rootUri uri (ext w) = (Ok (row :: rows), e1) ->
     exists w1,
       handle event w = (Ok tt, w1) /\
       calls w1 = (calls w ++ [DbSelectReplyRootUri uri;
                               ReplyHandleDelete uri rkey did (ReplyRow.rootUri row)])%list) /\
  (collection = "forum.atgora.interaction.reaction" ->
   forall row rows,
     select_reaction_subjectUri uri (ext w) = (Ok (row :: rows), e1) ->
     exists w1,
       handle event w = (Ok tt, w1) /\
       calls w1 = (calls w ++ [DbSelectReactionSubjectUri uri;
                               ReactionHandleDelete uri rkey did
                                 (ReactionRow.subjectUri row)])%list) /\
  (collection = "forum.atgora.topic.post" ->
   exists w1,
     handle event w = (Ok tt, w1) /\
     calls w1 = (calls w ++ [TopicHandleDelete uri rkey did])%list).
Proof.
  destruct event as [id collection action did rkey record cid live].
  destruct w as [e l c p].
  cbn [RecordEvent.action RecordEvent.did RecordEvent.rkey RecordEvent.collection ext calls].
  intros ->. split; [| split].
  - intros -> row rows Hselect. handler_step. rewrite Hselect.
    split_matches; units; eexists;
      (split; [reflexivity | cbv [calls]; rewrite <- ?app_assoc; reflexivity]).
  - intros -> row rows Hselect. handler_step. rewrite Hselect.
    split_matches; units; eexists;
      (split; [reflexivity | cbv [calls]; rewrite <- ?app_assoc; reflexivity]).
  - intros ->. handler_step.
    split_matches; units; eexists;
      (split; [reflexivity | cbv [calls]; rewrite <- ?app_assoc; reflexivity]).
Qed.


(** X15. The trust status the try block of [upsertUserWithTrustCheck]
    returns is the one the indexer of the collection receives with the
    create, together with the event's URI, rkey, DID, cid (or the empty
    string), record and live flag. *)
Theorem handle_create_passes_trust_status (event : RecordEvent.t Doc) (record : Doc)
    (trustStatus : TrustStatus) (w w1 w2 : World) :
  RecordEvent.action event = create ->
  RecordEvent.record event = Some record ->
  validateRecord (RecordEvent.collection event) record w = (Ok (Success record), w1) ->
  upsertUserWithTrustCheck_try (RecordEvent.did event) w1 = (Ok trustStatus, w2) ->
  let did := RecordEvent.did event in
  let rkey := RecordEvent.rkey event in
  let collection := RecordEvent.collection event in
  let uri := "at://" ++ did ++ "/" ++ collection ++ "/" ++ rkey in
  let params :=
    Params.mk uri rkey did
      (match RecordEvent.cid event with Some c => c | None => "" end)
      record (RecordEvent.live event) trustStatus in
  exists w3,
    handle event w = (Ok tt, w3) /\
    (collection = "forum.atgora.topic.post"
       /\ calls w3 = (calls w2 ++ [TopicHandleCreate params])%list
     \/ collection = "forum.atgora.topic.reply"
       /\ calls w3 = (calls w2 ++ [ReplyHandleCreate params])%list
     \/ collection = "forum.atgora.interaction.reaction"
       /\ calls w3 = (calls w2 ++ [ReactionHandleCreate params])%list).
Proof.
  destruct event as [id collection action did rkey orecord cid live].
  cbn [RecordEvent.action RecordEvent.did RecordEvent.rkey RecordEvent.collection
       RecordEvent.record RecordEvent.cid RecordEvent.live].
  intros -> -> Hval Hups.
  destruct w2 as [e2 l2 c2 p2].
  destruct (supported_cases collection
              (validateRecord_Success_supported _ _ _ _ _ Hval))
    as [Hc | [Hc | Hc]]; rewrite Hc in Hval |- *;
    cbv [handle handle_try dispatchCreate upsertUserWithTrustCheck
         try_catch bind call issue await ret logAt
         add_call add_log set_ext ext log calls pending
         RecordEvent.id RecordEvent.collection RecordEvent.action RecordEvent.did
         RecordEvent.rkey RecordEvent.record RecordEvent.cid RecordEvent.live
         isSupportedCollection SUPPORTED_COLLECTIONS COLLECTION_MAP existsb
         String.eqb Ascii.eqb Bool.eqb orb negb];
    rewrite Hval, Hups;
    split_matches; units; eexists; (split; [reflexivity |]); cbv [calls];
    first [ left; split; reflexivity
          | right; left; split; reflexivity
          | right; right; split; reflexivity ].
Qed.

(** X16. An event of an unsupported collection, or a create or update
    without a record or whose record does not pass validation, is
    dropped: [handle] returns normally, the outside state is as before
    and the only call that may have been made is the schema check. *)
Theorem handle_dropped_event_is_inert (event : RecordEvent.t Doc) (w : World) :
  (isSupportedCollection (RecordEvent.collection event) = false
   \/ RecordEvent.action event <> delete /\
      (RecordEvent.record event = None
       \/ exists record,
            RecordEvent.record event = Some record /\
            forall data, fst (validateRecord (RecordEvent.collection event) record w)
                         <> Ok (Success data))) ->
  exists w1,
    handle event w = (Ok tt, w1) /\
    ext w1 = ext w /\
    (calls w1 = calls w
     \/ exists schema record,
          RecordEvent.record event = Some record /\
          calls w1 = (calls w ++ [SafeParse schema record])%list).
Proof.
  destruct event as [id collection action did rkey orecord cid live].
  cbn [RecordEvent.action RecordEvent.collection RecordEvent.record].
  intros [Hunsup | [Hact Hrec]].
  - exists w. cbv [handle handle_try try_catch RecordEvent.collection].
    rewrite Hunsup. cbv [negb ret]. auto.
  - destruct (isSupportedCollection collection) eqn:Hsup.
    2:{ exists w. cbv [handle handle_try try_catch RecordEvent.collection].
        rewrite Hsup. cbv [negb ret]. auto. }
    assert (Hshape :
              handle_try (RecordEvent.mk id collection action did rkey orecord cid live) w
              = match orecord with
                | None =>
                    logAt warn [("collection", LStr collection);
                                ("action", LStr (action_name action));
                                ("did", LStr did); ("rkey", LStr rkey)]
                      "Record event missing record data" w
                | Some record =>
                    handle_try
                      (RecordEvent.mk id collection action did rkey (Some record) cid live) w
                end).
    { destruct orecord; [reflexivity |].
      cbv [handle_try RecordEvent.collection RecordEvent.action RecordEvent.did
           RecordEvent.rkey RecordEvent.record].
      rewrite Hsup. cbv [negb]. destruct action; [reflexivity | reflexivity | contradiction]. }
    destruct Hrec as [-> | [record [-> Hfail]]].
    + unfold handle, try_catch. rewrite Hshape.
      cbv [logAt add_log]. eexists. split; [reflexivity |]. cbn [ext calls]. auto.
    + assert (Hworld := validateRecord_world collection record w).
      unfold handle, try_catch.
      cbv [handle_try RecordEvent.collection RecordEvent.action RecordEvent.did
           RecordEvent.rkey RecordEvent.record RecordEvent.cid RecordEvent.live].
      rewrite Hsup. cbv [negb].
      assert (Hrun : forall k : ValidationResult Doc -> M unit,
                (forall message,
                    k (Failure message) = logAt debug
                      [("collection", LStr collection); ("did", LStr did);
                       ("rkey", LStr rkey); ("error", LStr message)]
                      "Record validation failed") ->
                exists w1,
                  match bind (validateRecord collection record) k w with
                  | (Ok a, w1) => (Ok a, w1)
                  | (Throw err, w1) =>
                      logAt error
                        [("err", LErr err); ("eventId", LNum id);
                         ("collection", LStr collection)]
                        "Error handling record event" w1
                  end = (Ok tt, w1) /\
                  ext w1 = ext w /\
                  (calls w1 = calls w
                   \/ exists schema record0,
                        Some record = Some record0 /\
                        calls w1 = (calls w ++ [SafeParse schema record0])%list)).
      { intros k Hk. unfold bind.
        destruct (validateRecord collection record w) as [[[data | message] | err] w1] eqn:Hval;
          cbn [fst snd] in *.
        - exfalso. apply (Hfail data). reflexivity.
        - rewrite (Hk message). cbv [logAt add_log].
          eexists. split; [reflexivity |]. cbn [ext calls].
          destruct Hworld as [-> | [schema ->]]; [auto |].
          split; [reflexivity |]. right. exists schema, record. auto.
        - cbv [logAt add_log]. eexists. split; [reflexivity |]. cbn [ext calls].
          destruct Hworld as [-> | [schema ->]]; [auto |].
          split; [reflexivity |]. right. exists schema, record. auto. }
      destruct action; [| | contradiction]; apply Hrun;
        intros message; reflexivity.
Qed.

End HandlerDiscipline.

Section HandlerDisciplineExamples.
Import Eff Types Validation Handler Fixtures MoreFixtures.

Lemma handle_delete_stored_reference_witness :
  exists w1,
    handle (event_of "forum.atgora.topic.reply" delete None) (start reply_stored)
    = (Ok tt, w1) /\
    calls w1
    = [DbSelectReplyRootUri (uri_of "forum.atgora.topic.reply");
       ReplyHandleDelete (uri_of "forum.atgora.topic.reply") "3kabc" TEST_DID
         (uri_of "forum.atgora.topic.post")].
Proof.
  destruct (handle_delete_stored_reference
              (event_of "forum.atgora.topic.reply" delete None) reply_stored
              (start reply_stored)) as [Hreply _].
  - reflexivity.
  - apply (Hreply eq_refl (ReplyRow.mk (uri_of "forum.atgora.topic.post")) []).
    reflexivity.
Defined.


Lemma handle_create_passes_trust_status_witness :
  exists w3,
    handle (event_of "forum.atgora.topic.post" create (Some small_record))
      (start (account_aged 120)) = (Ok tt, w3) /\
    In (TopicHandleCreate (params_of "forum.atgora.topic.post" new)) (calls w3).
Proof.
  destruct (handle_create_passes_trust_status
              (event_of "forum.atgora.topic.post" create (Some small_record))
              small_record new (start (account_aged 120))
              (snd (validateRecord "forum.atgora.topic.post" small_record
                      (start (account_aged 120))))
              (snd (upsertUserWithTrustCheck_try TEST_DID
                      (snd (validateRecord "forum.atgora.topic.post" small_record
                              (start (account_aged 120)))))))
    as [w3 [Hhandle Hcalls]].
  - reflexivity.
  - reflexivity.
  - vm_compute. reflexivity.
  - vm_compute. reflexivity.
  - exists w3. split; [exact Hhandle |].
    destruct Hcalls as [[_ ->] | [[H _] | [H _]]]; [| discriminate H | discriminate H].
    apply in_or_app. right. left. reflexivity.
Defined.

Lemma handle_dropped_event_is_inert_witness :
  exists w1,
    handle (event_of "forum.atgora.topic.post" create (Some (Json.Str [])))
      (start quiet) = (Ok tt, w1) /\
    ext w1 = quiet /\
    (calls w1 = []
     \/ exists schema record,
          Some (Json.Str []) = Some record /\
          calls w1 = [SafeParse schema record]).
Proof.
  apply (handle_dropped_event_is_inert
           (event_of "forum.atgora.topic.post" create (Some (Json.Str [])))
           (start quiet)).
  right. split; [discriminate |]. right. exists (Json.Str []).
  split; [reflexivity |]. intros data. vm_compute. discriminate.
Defined.

End HandlerDisciplineExamples.

(* ===================================================================== *)
(** ** Further properties: the auth hooks *)
(* ===================================================================== *)

Section AuthProperties.
Import Eff Http Auth.
Context {E P : Type}.
Context {sessionService : SessionService E} {didVerifier : DidDocumentVerifier E}
  {usersDb : UsersDb E}.
Notation World := (World E Call Empty_set).

(** X17. [extractBearerToken] gives a token exactly when the
    authorization header is "Bearer " followed by that token and the
    token is not empty. *)
Theorem extractBearerToken_spec (request : Request.t) (token : string) :
  extractBearerToken request = Some token
  <-> token <> "" /\ Request.authorization request = Some ("Bearer " ++ token).
Proof.
  unfold extractBearerToken. split.
  - destruct (Request.authorization request) as [authHeader |]; [| discriminate].
    destruct (String.eqb authHeader ""); cbn [orb]; [discriminate |].
    destruct (String.prefix "Bearer " authHeader) eqn:Hp; cbn [negb]; [| discriminate].
    apply prefix_drop in Hp.
    destruct (AtUri.drop (String.length "Bearer ") authHeader) as [| c rest] eqn:Hd;
      cbn [String.length Nat.eqb]; [discriminate |].
    intros H. injection H as <-. split; [discriminate |]. f_equal. exact Hp.
  - intros [Hne ->].
    change (String.eqb ("Bearer " ++ token) "") with false. cbn [orb].
    rewrite prefix_append. cbn [negb].
    change (AtUri.drop (String.length "Bearer ") ("Bearer " ++ token)) with token.
    destruct token; [contradiction | reflexivity].
Qed.

Ltac auth_unfold :=
  cbv [requireAuth optionalAuth requireAdmin isResolutionFailure
       try_catch bind call issue await ret throw logAt
       add_call add_log set_ext ext log calls pending].

(** X18. After [requireAuth] either a 401 or a 502 was sent and the request
    is as before, or nothing was sent and the request carries the user
    of a valid session whose identity was verified active. *)
Theorem requireAuth_outcome (request : Request.t) (reply : Reply.t P) (w : World) :
  exists request1 reply1 w1,
    requireAuth request reply w = (Ok (request1, reply1), w1) /\
    (request1 = request /\
     (exists error, reply1 = send 401 (ErrorBody error) reply
                    \/ reply1 = send 502 (ErrorBody error) reply)
     \/ reply1 = reply /\
        exists token session e1 e2,
          extractBearerToken request = Some token /\
          validateAccessToken token (ext w) = (Ok (Some session), e1) /\
          didVerifier_verify (Session.did session) e1 = (Ok Verifier.Active, e2) /\
          request1 = Request.mk (Request.authorization request) (Some (user_of session))).
Proof.
  destruct w as [e l c p]. cbn [ext].
  auth_unfold.
  split_matches; do 3 eexists; (split; [reflexivity |]);
    first [ left; split; [reflexivity | eexists; left; reflexivity]
          | left; split; [reflexivity | eexists; right; reflexivity]
          | right; split; [reflexivity |]; do 4 eexists;
            repeat split; try reflexivity; eassumption ].
Qed.

(** X19. [optionalAuth] sends nothing and never throws; it sets the user
    only for a valid session whose identity was verified active. *)
Theorem optionalAuth_outcome (request : Request.t) (reply : Reply.t P) (w : World) :
  exists request1 w1,
    optionalAuth request reply w = (Ok (request1, reply), w1) /\
    (request1 = request
     \/ exists token session e1 e2,
          extractBearerToken request = Some token /\
          validateAccessToken token (ext w) = (Ok (Some session), e1) /\
          didVerifier_verify (Session.did session) e1 = (Ok Verifier.Active, e2) /\
          request1 = Request.mk (Request.authorization request) (Some (user_of session))).
Proof.
  destruct w as [e l c p]. cbn [ext].
  auth_unfold.
  split_matches; do 2 eexists; (split; [reflexivity |]);
    first [ left; reflexivity
          | right; do 4 eexists; repeat split; try reflexivity; eassumption ].
Qed.

(** X20. [requireAdmin] lets a request through only for a user whose row has
    the role "admin"; otherwise a 401, 403 or 502 was sent.  Only the
    role look-up can make the hook throw. *)
Theorem requireAdmin_outcome (request : Request.t) (reply : Reply.t P) (w : World) :
  was_sent reply = false ->
  match requireAdmin requireAuth request reply w with
  | (Ok (request1, reply1), w1) =>
      was_sent reply1 = true /\
      (Reply.statusCode reply1 = 401 \/ Reply.statusCode reply1 = 403
       \/ Reply.statusCode reply1 = 502)
      \/ reply1 = reply /\
         exists user row rows e1 e2,
           Request.user request1 = Some user /\
           select_users_by_did (RequestUser.did user) e1 = (Ok (row :: rows), e2) /\
           UserRoleRow.role row = "admin"
  | (Throw err, w1) =>
      exists did e1 e2, select_users_by_did did e1 = (Throw err, e2)
  end.
Proof.
  intros Hunsent. destruct w as [e l c p].
  set (outcome := fun x : Result (Request.t * Reply.t P) * World =>
    match x with
    | (Ok (request1, reply1), w1) =>
        was_sent reply1 = true /\
        (Reply.statusCode reply1 = 401 \/ Reply.statusCode reply1 = 403
         \/ Reply.statusCode reply1 = 502)
        \/ reply1 = reply /\
           exists user row rows e1 e2,
             Request.user request1 = Some user /\
             select_users_by_did (RequestUser.did user) e1 = (Ok (row :: rows), e2) /\
             UserRoleRow.role row = "admin"
    | (Throw err, w1) =>
        exists did e1 e2, select_users_by_did did e1 = (Throw err, e2)
    end).
  change (outcome (requireAdmin requireAuth request reply (mkWorld e l c p))).
  cbv [requireAdmin requireAuth isResolutionFailure was_sent send
       try_catch bind call issue await ret throw logAt
       add_call add_log set_ext ext log calls pending fst snd
       Reply.sent Request.user].
  split_matches; subst outcome; cbv beta iota;
    try (left; split; [reflexivity | cbv [Reply.statusCode]; auto]; fail);
    try (rewrite Hunsent in *; discriminate);
    try discriminate.
  all: try (right; split; [reflexivity |];
            repeat match goal with
                   | H : Some _ = Some _ |- _ => injection H as H; subst
                   end;
            do 5 eexists; split; [reflexivity |]; split; [eassumption |];
            match goal with
            | H : negb (String.eqb ?r "admin") = false |- _ =>
                apply negb_false_iff in H; apply String.eqb_eq in H; exact H
            end).
  all: try (do 3 eexists; eassumption).
Qed.

End AuthProperties.

Section AuthWithVerifier.
Import Eff Http Auth.
Context {E0 P : Type}.
Context {cache : Verifier.Cache E0} {network : Verifier.Network E0}
  {clock : Verifier.Clock E0} {json : Verifier.EntryJson}.
Notation VWorld := (Eff.World E0 Verifier.Call Verifier.Task).
Context {sessionService : SessionService VWorld}.
Notation World := (Eff.World VWorld Call Empty_set).

(** The verdict of a cold [verify], by the directory's answer. *)
Lemma verify_cold_verdict (did : string) (e1 e2 : E0)
    (answer : Result Verifier.Response.t) (v0 : VWorld) :
  String.prefix "did:plc:" did = true ->
  Verifier.no_usable_cache_entry did (ext v0) e1 ->
  Verifier.fetch (Verifier.PLC_DIRECTORY_URL ++ "/" ++ did) Verifier.PLC_FETCH_TIMEOUT e1
  = (answer, e2) ->
  exists v1,
    Verifier.verify did v0
    = (Ok match answer with
          | Ok response =>
              if Verifier.Response.ok response then Verifier.Active
              else if Verifier.Response.status response =? 410
                   then Verifier.Inactive "DID has been tombstoned"
              else if Verifier.Response.status response =? 404
                   then Verifier.Inactive "DID not found in PLC directory"
              else Verifier.Inactive "DID document resolution failed"
          | Throw _ => Verifier.Inactive "DID document resolution failed"
          end, v1).
Proof.
  intros Hplc Hno Hfetch.
  destruct (tryCache_no_entry network did e1 v0 Hno) as [l1 Htry].
  unfold Verifier.verify. rewrite Hplc. cbn [negb]. rewrite (bind_Ok _ _ _ _ _ Htry).
  destruct v0 as [e l c p].
  cbv [Verifier.resolveAndCache Verifier.resolveFromPlc Verifier.resolveFromPlc_request
       Verifier.resolveFromPlc_response Verifier.cacheResult_request
       try_catch bind call issue await ask lift ret throw logAt detach
       add_call add_log add_pending set_ext ext log calls pending fst snd].
  rewrite Hfetch.
  split_matches; eexists; reflexivity.
Qed.

(** X21. [requireAuth] over the verifier of this repository, for a valid
    session of a [did:plc] identity with nothing usable in the cache:
    the directory's answer decides between passing, 401 and 502. *)
Theorem requireAuth_by_directory_answer (request : Request.t) (reply : Reply.t P)
    (token : string) (session : Session.t) (v0 : VWorld) (e1 e2 : E0)
    (answer : Result Verifier.Response.t) (w : World) :
  extractBearerToken request = Some token ->
  validateAccessToken token (ext w) = (Ok (Some session), v0) ->
  String.prefix "did:plc:" (Session.did session) = true ->
  Verifier.no_usable_cache_entry (Session.did session) (ext v0) e1 ->
  Verifier.fetch (Verifier.PLC_DIRECTORY_URL ++ "/" ++ Session.did session)
    Verifier.PLC_FETCH_TIMEOUT e1 = (answer, e2) ->
  exists request1 reply1 w1,
    requireAuth request reply w = (Ok (request1, reply1), w1) /\
    (forall response, answer = Ok response -> Verifier.Response.ok response = true ->
       reply1 = reply /\
       request1 = Request.mk (Request.authorization request) (Some (user_of session))) /\
    (forall response, answer = Ok response -> Verifier.Response.ok response = false ->
       Verifier.Response.status response = 410 \/ Verifier.Response.status response = 404 ->
       request1 = request /\
       reply1 = send 401 (ErrorBody "DID is no longer active") reply) /\
    ((forall response, answer = Ok response ->
        Verifier.Response.ok response = false /\
        Verifier.Response.status response <> 410 /\
        Verifier.Response.status response <> 404) ->
     request1 = request /\
     reply1 = send 502 (ErrorBody "Service temporarily unavailable") reply).
Proof.
  intros Htoken Hsession Hplc Hno Hfetch.
  destruct (verify_cold_verdict _ _ _ _ _ Hplc Hno Hfetch) as [v1 Hverify].
  destruct w as [e l c p]. cbn [ext] in Hsession.
  cbv [requireAuth try_catch bind call issue await ret logAt
       add_call add_log set_ext ext log calls pending].
  rewrite Htoken, Hsession.
  change (didVerifier_verify (Session.did session) v0)
    with (Verifier.verify (Session.did session) v0).
  rewrite Hverify.
  destruct answer as [[ok status] | err]; cbn [Verifier.Response.ok Verifier.Response.status].
  - destruct ok.
    + do 3 eexists. split; [reflexivity |].
      split; [auto |]. split.
      * intros response H Hok. injection H as <-. discriminate.
      * intros H. destruct (H _ eq_refl) as [Hok _]. discriminate.
    + destruct (Z.eqb_spec status 410) as [-> | H410].
      * do 3 eexists. split; [reflexivity |].
        split; [intros response H Hok; injection H as <-; discriminate |].
        split; [auto |].
        intros H. destruct (H _ eq_refl) as [_ [Hne _]]. cbn in Hne. contradiction.
      * destruct (Z.eqb_spec status 404) as [-> | H404].
        -- do 3 eexists. split; [reflexivity |].
           split; [intros response H Hok; injection H as <-; discriminate |].
           split; [auto |].
           intros H. destruct (H _ eq_refl) as [_ [_ Hne]]. cbn in Hne. contradiction.
        -- do 3 eexists. split; [reflexivity |].
           split; [intros response H Hok; injection H as <-; discriminate |].
           split; [| auto].
           intros response H _ [Hs | Hs]; injection H as <-; cbn in Hs; contradiction.
  - do 3 eexists. split; [reflexivity |].
    split; [intros response H; discriminate |].
    split; [intros response H; discriminate | auto].
Qed.

End AuthWithVerifier.

Section AuthExamples.
Import Eff Http Auth Fixtures MoreFixtures.

Lemma requireAdmin_outcome_witness :
  requireAdmin requireAuth (bearer "valid-token") (unsent (P := unit))
    (fresh (C := Call) (T := Empty_set) admin_outside)
  = (Ok (Request.mk (Some "Bearer valid-token") (Some (user_of alice)), unsent),
     mkWorld admin_outside []
       [ValidateAccessToken "valid-token"; VerifyDid "did:plc:abc123def456";
        DbSelectUserByDid "did:plc:abc123def456"] []) /\
  match requireAdmin requireAuth (bearer "valid-token") (unsent (P := unit))
          (fresh (C := Call) (T := Empty_set) admin_outside) with
  | (Ok (request1, reply1), w1) =>
      was_sent reply1 = true /\
      (Reply.statusCode reply1 = 401 \/ Reply.statusCode reply1 = 403
       \/ Reply.statusCode reply1 = 502)
      \/ reply1 = unsent /\
         exists user row rows e1 e2,
           Request.user request1 = Some user /\
           select_users_by_did (RequestUser.did user) e1 = (Ok (row :: rows), e2) /\
           UserRoleRow.role row = "admin"
  | (Throw err, w1) =>
      exists did e1 e2, select_users_by_did did e1 = (Throw err, e2)
  end.
Proof.
  split; [reflexivity |].
  apply (requireAdmin_outcome (bearer "valid-token") (unsent (P := unit))
           (fresh admin_outside)).
  reflexivity.
Defined.

Lemma requireAuth_by_directory_answer_witness :
  exists request1 w1,
    requireAuth (bearer "valid-token") (unsent (P := unit))
      (fresh (C := Call) (T := Empty_set)
         (start (C := Verifier.Call) (T := Verifier.Task) (answering false 410)))
    = (Ok (request1, send 401 (ErrorBody "DID is no longer active") unsent), w1) /\
    request1 = bearer "valid-token".
Proof.
  destruct (requireAuth_by_directory_answer (bearer "valid-token") (unsent (P := unit))
              "valid-token" alice (start (answering false 410))
              (answering false 410) (answering false 410)
              (Ok (Verifier.Response.mk false 410))
              (fresh (start (answering false 410))))
    as [request1 [reply1 [w1 [Hrun [_ [Hgone _]]]]]].
  - reflexivity.
  - reflexivity.
  - reflexivity.
  - vm_compute. auto.
  - reflexivity.
  - destruct (Hgone _ eq_refl eq_refl (or_introl eq_refl)) as [Hrequest Hreply].
    exists request1, w1. rewrite <- Hreply. auto.
Defined.

End AuthExamples.

(* ===================================================================== *)
(** ** Further properties: the setup service and its routes *)
(* ===================================================================== *)

Section SetupProperties.
Import Eff Http Setup SetupRoutes.
Context {E RawBody : Type} {db : SettingsDb E} {clock : Verifier.Clock E}
  {schema : InitializeBodySchema RawBody}.
Notation World := (Eff.World E Call Empty_set).

Ltac setup_unfold :=
  cbv [getStatusHandler initializeHandler getStatus initialize
       try_catch bind call issue await ask ret throw logAt
       add_call add_log set_ext ext log calls pending].

(** X22. [initialize] writes at most once: never for an initialized
    community, an update for a row that is there, an insert of the row
    ["default"] otherwise; the write names the caller as admin. *)
Theorem initialize_writes (did : string) (communityName : option string)
    (rows : list SettingsRow.t) (e1 : E) (w : World) :
  select_settings (ext w) = (Ok rows, e1) ->
  exists l,
    calls (snd (initialize did communityName w)) = (calls w ++ DbSelectSettings :: l)%list /\
    match rows with
    | existing :: _ =>
        if SettingsRow.initialized existing then
          l = [] /\ fst (initialize did communityName w) = Ok AlreadyInitialized
        else
          l = [DbUpdateSettings true did (finalName communityName (Some existing))
                 (fst (Verifier.Date_now e1))]
    | [] => l = [DbInsertSettings "default" true did (finalName communityName None)]
    end.
Proof.
  intros Hsel. destruct w as [e l0 c p]. cbn [ext] in Hsel.
  set (added := fun x : Result InitializeResult * World => calls (snd x)).
  set (result := fun x : Result InitializeResult * World => fst x).
  change (calls (snd (initialize did communityName (mkWorld e l0 c p))))
    with (added (initialize did communityName (mkWorld e l0 c p))).
  change (fst (initialize did communityName (mkWorld e l0 c p)))
    with (result (initialize did communityName (mkWorld e l0 c p))).
  cbn [calls]. setup_unfold. rewrite Hsel.
  destruct rows as [| existing rest].
  - split_matches; subst added result; cbv [snd calls]; eexists;
      (split; [rewrite <- ?app_assoc; reflexivity | reflexivity]).
  - destruct (SettingsRow.initialized existing).
    + subst added result. cbv [snd fst calls]. eexists. split; [reflexivity | auto].
    + split_matches; subst added result; cbv [snd fst calls]; eexists;
        (split; [rewrite <- ?app_assoc; reflexivity | reflexivity]).
Qed.

(** X23. [initialize] reports success only after its write succeeded, and
    then with the caller as admin and the name it wrote. *)
Theorem initialize_success (did : string) (communityName : option string)
    (adminDid name : string) (w w1 : World) :
  initialize did communityName w = (Ok (InitializedNow adminDid name), w1) ->
  adminDid = did /\
  exists rows e1 e2 e3,
    select_settings (ext w) = (Ok rows, e1) /\
    name = finalName communityName (hd_error rows) /\
    match rows with
    | existing :: _ =>
        SettingsRow.initialized existing = false /\
        update_settings true did name (fst (Verifier.Date_now e1)) e2 = (Ok tt, e3)
    | [] => insert_settings "default" true did name e2 = (Ok tt, e3)
    end.
Proof.
  destruct w as [e l0 c p]. cbn [ext]. setup_unfold.
  split_matches; units; intros H; try discriminate;
    injection H as ? ? ?; subst;
    (split; [reflexivity |]); do 4 eexists;
    (split; [reflexivity |]); (split; [reflexivity |]);
    cbn [hd_error fst];
    repeat match goal with
           | H : Verifier.Date_now _ = _ |- _ => rewrite H
           end; cbn [fst];
    first [eassumption | split; [assumption | eassumption]].
Qed.

(** X24. [getStatus] logs a database error and throws it on; the route
    handlers turn it into a 502 and never throw. *)
Theorem setup_errors_become_502 (reply : Reply.t SetupPayload) (w : World) :
  (forall err w1,
     getStatus w = (Throw err, w1) ->
     exists e1, select_settings (ext w) = (Throw err, e1) /\
                log w1 = (log w ++ [mkLogEntry error [("err", LErr err)]
                                      "Failed to get setup status"])%list) /\
  exists reply1 w1,
    getStatusHandler reply w = (Ok reply1, w1) /\
    (match select_settings (ext w) with
     | (Ok rows, _) =>
         exists status, reply1 = send 200 (Payload (StatusPayload status)) reply /\
           (forall name, status = Initialized name <->
              exists row rest, rows = row :: rest /\ SettingsRow.initialized row = true
                               /\ SettingsRow.communityName row = name)
     | (Throw _, _) =>
         reply1 = send 502 (ErrorBody "Service temporarily unavailable") reply
     end).
Proof.
  destruct w as [e l0 c p]. cbn [ext log]. split.
  - intros err w1. setup_unfold.
    split_matches; intros H; try discriminate; injection H as ? ?; subst.
    eexists. split; [reflexivity | reflexivity].
  - setup_unfold.
    destruct (select_settings e) as [[rows | err] e1]; cbv beta iota.
    + destruct rows as [| row rest].
      * do 2 eexists. split; [reflexivity |]. eexists. split; [reflexivity |].
        intros name. split; [discriminate | intros [? [? [? _]]]; discriminate].
      * destruct (SettingsRow.initialized row) eqn:Hinit; cbv [negb];
          do 2 eexists; (split; [reflexivity |]); eexists; (split; [reflexivity |]);
          intros name; split.
        -- intros H. injection H as <-. eauto.
        -- intros [row0 [rest0 [H [_ Hn]]]]. injection H as <- <-. now rewrite Hn.
        -- discriminate.
        -- intros [row0 [rest0 [H [Hi _]]]]. injection H as <- <-. congruence.
    + do 2 eexists. split; reflexivity.
Qed.

End SetupProperties.

Section SetupHandler.
Import Eff Http Setup SetupRoutes.
Context {E RawBody : Type} {db : SettingsDb E} {clock : Verifier.Clock E}
  {schema : InitializeBodySchema RawBody}.
Notation World := (Eff.World E Call Empty_set).

(** X25. The initialize handler never throws and answers with one of five
    statuses; without a valid body and a user it does not touch the
    database, and an initialized community gets a 409 and no write. *)
Theorem initializeHandler_guards (body : RawBody) (request : Auth.Request.t)
    (reply : Reply.t SetupPayload) (w : World) :
  exists reply1 w1,
    initializeHandler body request reply w = (Ok reply1, w1) /\
    was_sent reply1 = true /\
    (Reply.statusCode reply1 = 200 \/ Reply.statusCode reply1 = 400
     \/ Reply.statusCode reply1 = 401 \/ Reply.statusCode reply1 = 409
     \/ Reply.statusCode reply1 = 502) /\
    (initializeBody_safeParse body = None ->
       reply1 = send 400 (ErrorBody "Invalid request body") reply /\ w1 = w) /\
    (initializeBody_safeParse body <> None -> Auth.Request.user request = None ->
       reply1 = send 401 (ErrorBody "Authentication required") reply /\ w1 = w) /\
    (forall row rest e1,
       initializeBody_safeParse body <> None -> Auth.Request.user request <> None ->
       select_settings (ext w) = (Ok (row :: rest), e1) ->
       SettingsRow.initialized row = true ->
       reply1 = send 409 (ErrorBody "Community already initialized") reply /\
       filter is_write (calls w1) = filter is_write (calls w)).
Proof.
  destruct w as [e l0 c p]. cbn [ext calls].
  cbv [initializeHandler initialize
       try_catch bind call issue await ask ret throw logAt
       add_call add_log set_ext ext log calls pending].
  split_matches; do 2 eexists; (split; [reflexivity |]);
    (split; [reflexivity |]);
    (split; [cbv [send Reply.statusCode]; auto 6 |]);
    (split; [intros H; first [discriminate H | auto] |]);
    (split; [intros H1 H2; first [congruence | auto] |]);
    intros row rest e1' Hb Hu Hsel Hinit;
    try congruence;
    try (injection Hsel as ? ?; subst; congruence);
    try (injection Hsel as ? ?; subst; split; [reflexivity |];
         cbv [calls]; rewrite filter_app; cbn [filter is_write];
         rewrite app_nil_r; reflexivity).
Qed.

End SetupHandler.

Section SetupExamples.
Import Eff Http Setup SetupRoutes Fixtures MoreFixtures.

Lemma initialize_writes_witness :
  exists l,
    calls (snd (initialize "did:plc:abc123def456" None
                  (fresh (C := Call) (T := Empty_set) (prepared "Lobby"))))
    = DbSelectSettings :: l /\
    l = [DbUpdateSettings true "did:plc:abc123def456" "Lobby" 1771502400000].
Proof.
  destruct (initialize_writes "did:plc:abc123def456" None [SettingsRow.mk false "Lobby"]
              (prepared "Lobby") (fresh (prepared "Lobby"))) as [l [Hcalls Hwrite]].
  - reflexivity.
  - exists l. split; [exact Hcalls | exact Hwrite].
Defined.

Lemma initialize_success_witness :
  "did:plc:abc123def456" = "did:plc:abc123def456" /\
  exists rows e1 e2 e3,
    select_settings fresh_install = (Ok rows, e1) /\
    DEFAULT_COMMUNITY_NAME = finalName None (hd_error rows) /\
    match rows with
    | existing :: _ =>
        SettingsRow.initialized existing = false /\
        update_settings true "did:plc:abc123def456" DEFAULT_COMMUNITY_NAME
          (fst (Verifier.Date_now e1)) e2 = (Ok tt, e3)
    | [] =>
        insert_settings "default" true "did:plc:abc123def456" DEFAULT_COMMUNITY_NAME e2
        = (Ok tt, e3)
    end.
Proof.
  apply (initialize_success "did:plc:abc123def456" None "did:plc:abc123def456"
           DEFAULT_COMMUNITY_NAME (fresh (C := Call) (T := Empty_set) fresh_install)
           (snd (initialize "did:plc:abc123def456" None (fresh fresh_install)))).
  reflexivity.
Defined.

End SetupExamples.
